(** * types-generator: the schema-to-type translation engine

    A shallow embedding of the translation engine of [src/index.ts] (the
    TypeScript source kept in README.md from its line 85 on) together with
    the generator table [dist/generators/typescriptGenerator.js].

    [bin/generate.js] and [unnamed/part_000] are two older builds of the same
    file; where they already contain a function unchanged
    ([fixErrorsOnProperty], [getDefinitions], [checkOpenApiVersion],
    [isRequired]) the definition below is the common text. *)

From Stdlib Require Import String Ascii List Bool Arith Lia.
Import ListNotations.
Open Scope string_scope.

(** ** fp-ts: [Either] and the pipeable combinators the engine uses *)

Inductive Either (E A : Type) : Type :=
| left (e : E)
| right (a : A).
Arguments left {E A} e.
Arguments right {E A} a.

Module E.

Definition map {E A B} (f : A -> B) (fa : Either E A) : Either E B :=
  match fa with
  | left e => left e
  | right a => right (f a)
  end.

Definition chain {E A B} (f : A -> Either E B) (ma : Either E A) : Either E B :=
  match ma with
  | left e => left e
  | right a => f a
  end.

Definition fold {E A B} (onLeft : E -> B) (onRight : A -> B) (ma : Either E A) : B :=
  match ma with
  | left e => onLeft e
  | right a => onRight a
  end.

(** [ap fab fa]: the first [left] wins, the function side first. *)
Definition ap {E A B} (fab : Either E (A -> B)) (fa : Either E A) : Either E B :=
  match fab with
  | left e => left e
  | right f =>
      match fa with
      | left e => left e
      | right a => right (f a)
      end
  end.

Definition isRight {E A} (ma : Either E A) : bool :=
  match ma with
  | left _ => false
  | right _ => true
  end.

End E.

(** fp-ts/lib/function *)
Definition constant {A B} (a : A) : B -> A := fun _ => a.

Definition not_ {A} (predicate : A -> bool) : A -> bool :=
  fun a => negb (predicate a).

(** ** JavaScript evaluation that may not return

    A call of the engine either returns a value or lets a [TypeError]
    escape (the engine catches nothing).  [Some v] is a call that returned
    [v]; [None] is a call that did not return. *)

Definition bind {A B} (m : option A) (f : A -> option B) : option B :=
  match m with
  | Some a => f a
  | None => None
  end.

Notation "x <- m ;; k" := (bind m (fun x => k))
  (at level 61, m at next level, right associativity).

(** ** services/utils *)

(** The double quote and the line feed, which the generator's literals
    contain. *)
Definition dquote : string := String "034"%char EmptyString.
Definition newline : string := String "010"%char EmptyString.

(** Modelled from the spec: [services/utils] is not among the sources.
    [prefix a] puts [a] in front of its argument: the header and the
    [export type Name=] declarations of the spec's examples are built
    with it. *)
Definition prefix (a : string) : string -> string := fun b => a ++ b.

(** Modelled from the spec: [services/utils] is not among the sources.
    [suffix a] appends [a], as in the [(number|null)] of the spec's
    example. *)
Definition suffix (a : string) : string -> string := fun b => b ++ a.

(** Modelled from the spec: [services/utils] is not among the sources.
    [surround a b] wraps its argument, as in [Array<Pet>]. *)
Definition surround (a b : string) : string -> string := fun s => a ++ s ++ b.

(** Modelled from the spec: [services/utils] is not among the sources.
    [join], as [Array.prototype.join] in the older builds. *)
Definition join (separator : string) : list string -> string :=
  String.concat separator.

(** Modelled from the spec: [services/utils] is not among the sources.
    [doIf predicate f] applies [f] when the predicate holds and is the
    identity otherwise. *)
Definition doIf {A} (predicate : A -> bool) (f : A -> A) : A -> A :=
  fun a => if predicate a then f a else a.

Fixpoint startsWith (search s : string) : bool :=
  match search, s with
  | EmptyString, _ => true
  | String a search', String b s' => Ascii.eqb a b && startsWith search' s'
  | String _ _, EmptyString => false
  end.

Fixpoint drop (n : nat) (s : string) : string :=
  match n, s with
  | S n', String _ s' => drop n' s'
  | _, _ => s
  end.

(** Modelled from the spec: [services/utils] is not among the sources.
    [replace search replacement] follows [String.prototype.replace] with a
    string pattern, which the older builds call: the first occurrence only. *)
Fixpoint replace (search replacement s : string) : string :=
  if startsWith search s then replacement ++ drop (String.length search) s
  else match s with
       | EmptyString => EmptyString
       | String c s' => String c (replace search replacement s')
       end.

(** ** models: Property, Swagger, Options

    A property is a JSON object read through the keys below; an absent key
    is [None].  Keys that no function of the engine reads ([description],
    [format], ...) and the order of the keys are not represented. *)

#[local] Set Warnings "-register-all".

Inductive Property : Type := mkProperty {
  ref : option string;                              (* "$ref" *)
  allOf : option (list Property);
  oneOf : option (list Property);
  anyOf : option (list Property);
  type : option string;
  items : option Property;
  enum : option (list string);
  properties : option (list (string * Property));   (* in Object.entries order *)
  required : option (list string);
  nullable : option bool
}.

(** The object literal [{}]. *)
Definition emptyProperty : Property :=
  mkProperty None None None None None None None None None None.

Record Components : Type := mkComponents {
  schemas : list (string * Property)                (* in Object.entries order *)
}.

Record Swagger : Type := mkSwagger {
  openapi : string;
  components : option Components
}.

Inductive OutputType : Type := TypeScript | Flow | CodecIoTs.

(** [outputType] is the field [type] of the source's [Options]. *)
Record Options : Type := mkOptions {
  outputType : OutputType;
  exitOnInvalidType : bool
}.

(** The three [new Error(...)] of the engine, by what their message is
    built from: ["Invalid type: " + JSON.stringify(property)],
    ["Version not supported: " + swagger.openapi] and
    ["There is no definition"]. *)
Inductive Error : Type :=
| InvalidType (property : Property)
| VersionNotSupported (version : string)
| NoDefinition.

Definition TypeResult : Type := Either Error string.

(** ** Normalization: [fixErrorsOnProperty] *)

Inductive Composite : Type := AllOf | OneOf | AnyOf.

(** [const { allOf, ...otherProperties } = property]: every key but the
    named one. *)
Definition otherProperties (key : Composite) (property : Property) : Property :=
  match key with
  | AllOf =>
      mkProperty (ref property) None (oneOf property) (anyOf property)
        (type property) (items property) (enum property)
        (properties property) (required property) (nullable property)
  | OneOf =>
      mkProperty (ref property) (allOf property) None (anyOf property)
        (type property) (items property) (enum property)
        (properties property) (required property) (nullable property)
  | AnyOf =>
      mkProperty (ref property) (allOf property) (oneOf property) None
        (type property) (items property) (enum property)
        (properties property) (required property) (nullable property)
  end.

(** The object literals [{ allOf: members }], [{ oneOf: members }] and
    [{ anyOf: members }]. *)
Definition compositeOnly (key : Composite) (members : list Property) : Property :=
  match key with
  | AllOf => mkProperty None (Some members) None None None None None None None None
  | OneOf => mkProperty None None (Some members) None None None None None None None
  | AnyOf => mkProperty None None None (Some members) None None None None None None
  end.

(** ["key" in property] *)
Definition has {A} (field : option A) : bool :=
  match field with
  | Some _ => true
  | None => false
  end.

(** [{ key: [...members, { ...otherProperties }] }] *)
Definition moveSiblings (key : Composite) (members : option (list Property))
    (property : Property) : Property :=
  match members with
  | Some members' =>
      compositeOnly key (members' ++ [otherProperties key property])%list
  | None => property
  end.

Definition fixErrorsOnProperty (property : Property) : Property :=
  if has (allOf property) && has (type property)
  then moveSiblings AllOf (allOf property) property
  else if has (oneOf property) && has (type property)
  then moveSiblings OneOf (oneOf property) property
  else if has (anyOf property) && has (type property)
  then moveSiblings AnyOf (anyOf property) property
  else property.

(** ** type-guards *)

(** [property.type === name] *)
Definition typeIs (name : string) (property : Property) : bool :=
  match type property with
  | Some t => String.eqb t name
  | None => false
  end.

(** Modelled from the spec: [type-guards] is not among the sources.  Each
    guard is the structural test the older build [bin/generate.js] writes
    inline at the same place of the dispatch: ["$ref" in property]. *)
Definition isReference (property : Property) : bool := has (ref property).

(** Modelled from the spec: [type-guards] is not among the sources;
    ["allOf" in property && property.allOf] in the older build. *)
Definition isAllOf (property : Property) : bool := has (allOf property).

(** Modelled from the spec: [type-guards] is not among the sources;
    ["anyOf" in property && property.anyOf] in the older build. *)
Definition isAnyOf (property : Property) : bool := has (anyOf property).

(** Modelled from the spec: [type-guards] is not among the sources;
    ["oneOf" in property && property.oneOf] in the older build. *)
Definition isOneOf (property : Property) : bool := has (oneOf property).

(** Modelled from the spec: [type-guards] is not among the sources;
    [property.type === "array"] in the older build. *)
Definition isArray (property : Property) : bool := typeIs "array" property.

(** Modelled from the spec: [type-guards] is not among the sources;
    [property.type === "object"] in the older build. *)
Definition isObject (property : Property) : bool := typeIs "object" property.

(** Modelled from the spec: [type-guards] is not among the sources;
    [property.type === "string" && property.enum] in the older build. *)
Definition isEnum (property : Property) : bool :=
  typeIs "string" property && has (enum property).

(** Modelled from the spec: [type-guards] is not among the sources. *)
Definition isNumber (property : Property) : bool := typeIs "number" property.

(** Modelled from the spec: [type-guards] is not among the sources. *)
Definition isString (property : Property) : bool := typeIs "string" property.

(** Modelled from the spec: [type-guards] is not among the sources. *)
Definition isBoolean (property : Property) : bool := typeIs "boolean" property.

(** Modelled from the spec: [type-guards] is not among the sources;
    [property.type === "integer"] in the older build. *)
Definition isInteger (property : Property) : bool := typeIs "integer" property.

(** ** models/Generator and the generator table *)

Module Generator.

(** Modelled from the spec: the interface [models/Generator] is not among
    the sources; its fields are those of [typeScriptGenerator], every
    rendered type a string. *)
Record t : Type := mk {
  getTypeString : unit -> string;
  getTypeNumber : unit -> string;
  getTypeInteger : unit -> string;
  getTypeBoolean : unit -> string;
  getTypeEnum : list string -> string;
  getTypeArray : string -> string;
  getTypeAnyOf : list string -> string;
  getTypeOneOf : list string -> string;
  getTypeAllOf : list string -> string;
  getTypeObject : list string -> string;
  getTypeReference : string -> string;
  getProperty : string -> bool -> string -> string;
  getTypeUnknown : unit -> string;
  addHeader : string -> string;
  combineTypes : list string -> string;
  getTypeDefinition : string -> string -> string;
  makeTypeNullable : string -> string
}.

End Generator.

(** What the engine imports and the sources do not contain: the case
    conversion of [services/utils] (taken to return on every key) and the
    two other generator tables. *)
Class Environment : Type := {
  toPascalCase : string -> string;
  flowGenerator : Generator.t;
  codecGenerator : Generator.t
}.

Section Engine.

Context {environment : Environment}.

Definition typeScriptGenerator : Generator.t := {|
  Generator.getTypeString := fun _ => "string";
  Generator.getTypeNumber := fun _ => "number";
  Generator.getTypeInteger := fun _ => "number";
  Generator.getTypeBoolean := fun _ => "boolean";
  Generator.getTypeEnum := fun values => join "|" (List.map (surround "'" "'") values);
  Generator.getTypeArray := surround "Array<" ">";
  Generator.getTypeAnyOf := join "|";
  Generator.getTypeOneOf := join "|";
  Generator.getTypeAllOf := join "&";
  Generator.getTypeObject := fun fields => surround "{" "}" (join "," fields);
  Generator.getTypeReference := toPascalCase;
  Generator.getProperty := fun key isRequired =>
    prefix
      (suffix ":"
         (doIf (not_ (constant isRequired)) (suffix "?")
            (surround dquote dquote key)));
  Generator.getTypeUnknown := constant "unknown";
  Generator.addHeader := prefix (dquote ++ "use strict" ++ dquote ++ ";" ++ newline);
  Generator.combineTypes := join ";";
  Generator.getTypeDefinition := fun key =>
    prefix ("export type " ++ toPascalCase key ++ "=");
  Generator.makeTypeNullable := fun type => surround "(" ")" (suffix "|null" type)
|}.

Definition getGenerator (options : Options) : Generator.t :=
  match outputType options with
  | TypeScript => typeScriptGenerator
  | Flow => flowGenerator
  | CodecIoTs => codecGenerator
  end.

Definition getDefinitions (swagger : Swagger)
    : Either Error (list (string * Property)) :=
  match components swagger with
  | Some components' => right (schemas components')
  | None => left NoDefinition
  end.

Definition getReferenceName (options : Options) : string -> string :=
  fun reference =>
    Generator.getTypeReference (getGenerator options)
      (replace "#/components/schemas/" "" reference).

Definition isRequired (key : string) (requiredFields : option (list string)) : bool :=
  match requiredFields with
  | Some fields => existsb (String.eqb key) fields
  | None => false
  end.

Definition isNullable (property : Property) : string -> bool :=
  constant
    match nullable property with
    | Some true => true
    | _ => false
    end.

Definition getInvalidType (options : Options) (property : Property) : TypeResult :=
  if exitOnInvalidType options
  then left (InvalidType property)
  else right (Generator.getTypeUnknown (getGenerator options) tt).

(** A handler answers [left result] when its guard accepts the property and
    hands the property on as [right property] otherwise. *)
Definition getPropertyHandler (isT : Property -> bool)
    (handleT : Options -> Property -> option TypeResult)
    (options : Options) (property : Property)
    : Either (option TypeResult) Property :=
  if isT property
  then left (handleT options property)
  else right property.

Definition isValidAllOf (property : Property) : bool :=
  isAllOf property &&
  match allOf property with
  | Some members => forallb (fun subprop => isReference subprop || isObject subprop) members
  | None => false
  end.

(** The variants of a property, in the order of the handlers of
    [getType]. *)
Inductive Variant : Type :=
| VReference | VAllOf | VAnyOf | VOneOf | VArray | VObject
| VEnum | VNumber | VString | VBoolean | VInteger | VInvalid.

Definition classify (property : Property) : Variant :=
  if isReference property then VReference
  else if isValidAllOf property then VAllOf
  else if isAnyOf property then VAnyOf
  else if isOneOf property then VOneOf
  else if isArray property then VArray
  else if isObject property then VObject
  else if isEnum property then VEnum
  else if isNumber property then VNumber
  else if isString property then VString
  else if isBoolean property then VBoolean
  else if isInteger property then VInteger
  else VInvalid.

(** [A.Traversable.traverse(E.Applicative)]: fp-ts folds the array from the
    left, calling [f] on every element in turn and combining with [ap], so
    the first [left] in array order is the result; a call of [f] that does
    not return ends the traversal. *)
Section Traverse.

Context {Err A B : Type}.
Variable f : A -> option (Either Err B).

Fixpoint traverseFrom (fbs : Either Err (list B)) (ta : list A)
    : option (Either Err (list B)) :=
  match ta with
  | [] => Some fbs
  | a :: ta' =>
      fb <- f a ;;
      traverseFrom (E.ap (E.map (fun bs b => (bs ++ [b])%list) fbs) fb) ta'
  end.

Definition traverseArray (ta : list A) : option (Either Err (list B)) :=
  traverseFrom (right []) ta.

(** [f] returns [b] on [a]. *)
Definition succeeds (a : A) (b : B) : Prop := f a = Some (right b).

(** The call of [f] on [a] returns (a value or a failure). *)
Definition returns (a : A) : Prop := f a <> None.

End Traverse.

(** [flow(f, g)] *)
Notation "f >>> g" := (fun x => g (f x))
  (at level 45, left associativity, only parsing).

(** The body of [getType], with the recursive occurrences of [getType]
    taken from the section variable. *)
Section Handlers.

Variable getType : Options -> Property -> option TypeResult.

(** The arrow functions handed to [getPropertyHandler], named after the
    guard they come with. *)
Definition handleReference (options : Options) (property : Property)
    : option TypeResult :=
  reference <- ref property ;;
  Some (right (getReferenceName options reference)).

Definition handleAllOf (options : Options) (property : Property)
    : option TypeResult :=
  members <- allOf property ;;
  option_map (E.map (Generator.getTypeAllOf (getGenerator options)))
    (traverseArray (getType options) members).

Definition handleOneOf (options : Options) (property : Property)
    : option TypeResult :=
  members <- oneOf property ;;
  option_map (E.map (Generator.getTypeOneOf (getGenerator options)))
    (traverseArray (getType options) members).

Definition handleAnyOf (options : Options) (property : Property)
    : option TypeResult :=
  members <- anyOf property ;;
  option_map (E.map (Generator.getTypeAnyOf (getGenerator options)))
    (traverseArray (getType options) members).

(** [property.items] of an [array] without [items] is [undefined], and
    [getType] of [undefined] does not return. *)
Definition handleArray (options : Options) (property : Property)
    : option TypeResult :=
  items' <- items property ;;
  option_map (E.map (Generator.getTypeArray (getGenerator options)))
    (getType options items').

Definition handleEnum (options : Options) (property : Property)
    : option TypeResult :=
  values <- enum property ;;
  Some (right (Generator.getTypeEnum (getGenerator options) values)).

Definition handleInteger (options : Options) (_ : Property) : option TypeResult :=
  Some (right (Generator.getTypeInteger (getGenerator options) tt)).

Definition handleNumber (options : Options) (_ : Property) : option TypeResult :=
  Some (right (Generator.getTypeNumber (getGenerator options) tt)).

Definition handleString (options : Options) (_ : Property) : option TypeResult :=
  Some (right (Generator.getTypeString (getGenerator options) tt)).

Definition handleBoolean (options : Options) (_ : Property) : option TypeResult :=
  Some (right (Generator.getTypeBoolean (getGenerator options) tt)).

(** [Object.entries(property.properties || {})] *)
Definition entries (property : Property) : list (string * Property) :=
  match properties property with
  | Some fields => fields
  | None => []
  end.

(** The arrow function that renders one field of an object. *)
Definition handleField (options : Options) (property : Property)
    : string * Property -> option TypeResult :=
  fun '(key, childProperty) =>
    option_map
      (E.map
         (Generator.getProperty (getGenerator options) key
            (isRequired key (required property))))
      (getType options childProperty).

Definition handleObject (options : Options) (property : Property)
    : option TypeResult :=
  option_map (E.map (Generator.getTypeObject (getGenerator options)))
    (traverseArray (handleField options property) (entries property)).

Definition getTypeRef := getPropertyHandler isReference handleReference.
Definition getTypeAllOf := getPropertyHandler isValidAllOf handleAllOf.
Definition getTypeOneOf := getPropertyHandler isOneOf handleOneOf.
Definition getTypeAnyOf := getPropertyHandler isAnyOf handleAnyOf.
Definition getTypeArray := getPropertyHandler isArray handleArray.
Definition getTypeEnum := getPropertyHandler isEnum handleEnum.
Definition getTypeInteger := getPropertyHandler isInteger handleInteger.
Definition getTypeNumber := getPropertyHandler isNumber handleNumber.
Definition getTypeString := getPropertyHandler isString handleString.
Definition getTypeBoolean := getPropertyHandler isBoolean handleBoolean.
Definition getTypeObject := getPropertyHandler isObject handleObject.

(** The nullable wrap that ends [getType]. *)
Definition wrapNullable (options : Options) (property : Property)
    : option TypeResult -> option TypeResult :=
  option_map
    (E.map
       (doIf (isNullable property)
          (Generator.makeTypeNullable (getGenerator options)))).

Definition getTypeStep (options : Options) (property : Property)
    : option TypeResult :=
  (fixErrorsOnProperty
   >>> (getTypeRef options
        >>> E.chain (getTypeAllOf options)
        >>> E.chain (getTypeAnyOf options)
        >>> E.chain (getTypeOneOf options)
        >>> E.chain (getTypeArray options)
        >>> E.chain (getTypeObject options)
        >>> (E.chain (getTypeEnum options)
             >>> E.chain (getTypeNumber options)
             >>> E.chain (getTypeString options)
             >>> E.chain (getTypeBoolean options)
             >>> E.chain (getTypeInteger options)))
   >>> E.fold (fun result => result)
         (fun unmatched => Some (getInvalidType options unmatched))
   >>> wrapNullable options property)
    property.

(** The chain of handlers in [getType], read as the cascade of tests it
    amounts to ([getTypeStep_dispatch]): [classify] names the first guard
    of the chain that accepts the normalized property, [VInvalid] when
    none does, and [handle] is what the chain then answers. *)
Definition handle (variant : Variant) (options : Options) (property : Property)
    : option TypeResult :=
  match variant with
  | VReference => handleReference options property
  | VAllOf => handleAllOf options property
  | VAnyOf => handleAnyOf options property
  | VOneOf => handleOneOf options property
  | VArray => handleArray options property
  | VObject => handleObject options property
  | VEnum => handleEnum options property
  | VNumber => handleNumber options property
  | VString => handleString options property
  | VBoolean => handleBoolean options property
  | VInteger => handleInteger options property
  | VInvalid => Some (getInvalidType options property)
  end.

Definition dispatch (options : Options) (property : Property) : option TypeResult :=
  handle (classify property) options property.

End Handlers.

(** The recursion of [getType] goes through the members that
    [fixErrorsOnProperty] builds, which are not parts of the property: the
    function is defined with a bound on the nesting, and [getType] starts
    it with the [weight] of the property, which is enough
    ([getTypeFuel_enough]). *)
Fixpoint getTypeFuel (fuel : nat) (options : Options) (property : Property)
    : option TypeResult :=
  match fuel with
  | O => None
  | S fuel' => getTypeStep (getTypeFuel fuel') options property
  end.

Definition weightMembers (weight : Property -> nat)
    (members : option (list Property)) : nat :=
  match members with
  | Some members' => S (list_sum (List.map weight members'))
  | None => 0
  end.

Fixpoint weight (property : Property) : nat :=
  match property with
  | mkProperty _ allOf' oneOf' anyOf' _ items' _ properties' _ _ =>
      S (weightMembers weight allOf'
         + weightMembers weight oneOf'
         + weightMembers weight anyOf'
         + match items' with
           | Some item => weight item
           | None => 0
           end
         + match properties' with
           | Some fields =>
               list_sum (List.map (fun '(_, child) => weight child) fields)
           | None => 0
           end)
  end.

Definition getType (options : Options) (property : Property) : option TypeResult :=
  getTypeFuel (weight property) options property.

(** [/3\.0\.\d+/] *)
Definition isDigit (c : ascii) : bool :=
  Nat.leb 48 (nat_of_ascii c) && Nat.leb (nat_of_ascii c) 57.

(** The pattern at the start of the string: [3.0.] and one digit (further
    digits extend the match and do not decide it). *)
Definition versionHere (s : string) : bool :=
  match s with
  | String "3" (String "." (String "0" (String "." (String d _)))) => isDigit d
  | _ => false
  end.

(** [s.match(/3\.0\.\d+/)] is not [null]: the pattern is searched at
    every position. *)
Fixpoint versionMatch (s : string) : bool :=
  versionHere s ||
  match s with
  | EmptyString => false
  | String _ s' => versionMatch s'
  end.

Definition checkOpenApiVersion (swagger : Swagger) : Either Error Swagger :=
  if versionMatch (openapi swagger)
  then right swagger
  else left (VersionNotSupported (openapi swagger)).

Definition getTypesFromSchemas (options : Options)
    (schemas' : list (string * Property)) : option (Either Error (list string)) :=
  traverseArray
    (fun '(key, property) =>
       option_map
         (E.map (Generator.getTypeDefinition (getGenerator options) key))
         (getType options property))
    schemas'.

Definition eitherPrefix (b c : Either Error string) : Either Error string :=
  E.ap (E.map prefix b) c.

Definition baseDefinitionsToString (options : Options)
    : list (string * Property) -> option (Either Error string) :=
  getTypesFromSchemas options
  >>> option_map (E.map (Generator.combineTypes (getGenerator options))).

(** [{ ...options, type: "TypeScript" }] *)
Definition asTypeScript (options : Options) : Options :=
  mkOptions TypeScript (exitOnInvalidType options).

Definition isCodecIoTs (options : Options) : bool :=
  match outputType options with
  | CodecIoTs => true
  | _ => false
  end.

(** The TypeScript pass is an argument of [eitherPrefix], itself an argument
    of [doIf]: it is evaluated first, whatever the output type. *)
Definition definitionsToString (options : Options)
    (schemas' : list (string * Property)) : option (Either Error string) :=
  typeScript <- baseDefinitionsToString (asTypeScript options) schemas' ;;
  base <- baseDefinitionsToString options schemas' ;;
  Some
    (doIf (constant (isCodecIoTs options))
       (E.map (prefix ";") >>> eitherPrefix typeScript)
       base).

(** [E.chain] with a continuation that may not return. *)
Definition chainReturned {Err A B} (f : A -> option (Either Err B))
    (ma : Either Err A) : option (Either Err B) :=
  match ma with
  | left e => Some (left e)
  | right a => f a
  end.

Definition generate (options : Options) : Swagger -> option (Either Error string) :=
  checkOpenApiVersion
  >>> E.chain getDefinitions
  >>> chainReturned (definitionsToString options)
  >>> option_map (E.map (Generator.addHeader (getGenerator options))).

End Engine.

(** ** Documents of the specification's examples *)

Definition stringProperty : Property :=
  mkProperty None None None None (Some "string") None None None None None.

Definition petProperty : Property :=
  mkProperty None None None None (Some "object") None None
    (Some [("name", stringProperty);
           ("age",
            mkProperty None None None None (Some "integer") None None None None
              (Some true))])
    (Some ["name"]) None.

Definition petSchemas : list (string * Property) := [("Pet", petProperty)].

(** An environment for the closed examples: keys and reference names that
    are already in Pascal case are kept, and the TypeScript table stands in
    for the two tables that are not among the sources. *)
Definition placeholderGenerator : Generator.t :=
  Generator.mk
    (constant "") (constant "") (constant "") (constant "") (constant "")
    (fun s => s) (constant "") (constant "") (constant "") (constant "")
    (fun s => s) (fun _ _ s => s) (constant "") (fun s => s) (constant "")
    (fun _ s => s) (fun s => s).

Definition bareEnvironment : Environment := {|
  toPascalCase := fun key => key;
  flowGenerator := placeholderGenerator;
  codecGenerator := placeholderGenerator
|}.

Definition sampleEnvironment : Environment := {|
  toPascalCase := fun key => key;
  flowGenerator := @typeScriptGenerator bareEnvironment;
  codecGenerator := @typeScriptGenerator bareEnvironment
|}.

Definition typeScriptOptions (exit : bool) : Options := mkOptions TypeScript exit.

(** ** Notions the statements use *)

(** The properties a handler may translate: the direct members of a
    property. *)
Definition children (property : Property) : list Property :=
  (match allOf property with Some members => members | None => [] end
   ++ match oneOf property with Some members => members | None => [] end
   ++ match anyOf property with Some members => members | None => [] end
   ++ match items property with Some item => [item] | None => [] end
   ++ List.map snd
        (match properties property with Some fields => fields | None => [] end))%list.

(** The member list of a composite and the rendering that joins its
    members. *)
Definition membersOf (key : Composite) (property : Property)
    : option (list Property) :=
  match key with
  | AllOf => allOf property
  | OneOf => oneOf property
  | AnyOf => anyOf property
  end.

Definition variantOf (key : Composite) : Variant :=
  match key with
  | AllOf => VAllOf
  | OneOf => VOneOf
  | AnyOf => VAnyOf
  end.

Definition renderComposite (generator : Generator.t) (key : Composite)
    : list string -> string :=
  match key with
  | AllOf => Generator.getTypeAllOf generator
  | OneOf => Generator.getTypeOneOf generator
  | AnyOf => Generator.getTypeAnyOf generator
  end.



(** The property without its [oneOf] and [anyOf] keys. *)
Definition withoutUnions (property : Property) : Property :=
  otherProperties OneOf (otherProperties AnyOf property).

(** The spec's reading of the version test: the string contains [3.0.]
    followed by at least one digit. *)
Definition allDigits (digits : string) : Prop :=
  forall c, In c (list_ascii_of_string digits) -> isDigit c = true.

Definition matchesVersionPattern (version : string) : Prop :=
  exists before digits after,
    version = before ++ "3.0." ++ digits ++ after
    /\ digits <> EmptyString
    /\ allDigits digits.

(** The typed reading of a property tree: [ArrayProperty] declares
    [items], so every property of type [array], at any depth, has the
    key. *)
Definition allMembers (test : Property -> bool)
    (members : option (list Property)) : bool :=
  match members with
  | Some members' => forallb test members'
  | None => true
  end.

Fixpoint arraysHaveItems (property : Property) : bool :=
  match property with
  | mkProperty _ allOf' oneOf' anyOf' type' items' _ properties' _ _ =>
      allMembers arraysHaveItems allOf'
      && allMembers arraysHaveItems oneOf'
      && allMembers arraysHaveItems anyOf'
      && match items' with
         | Some item => arraysHaveItems item
         | None =>
             negb match type' with
                  | Some t => String.eqb t "array"
                  | None => false
                  end
         end
      && match properties' with
         | Some fields => forallb (fun '(_, child) => arraysHaveItems child) fields
         | None => true
         end
  end.

(** ** Further example properties *)

Definition referenceTo (name : string) : Property :=
  mkProperty (Some ("#/components/schemas/" ++ name))
    None None None None None None None None None.

Definition objectWith (fields : list (string * Property)) : Property :=
  mkProperty None None None None (Some "object") None None (Some fields) None None.


(** [{allOf: [{type: string}]}] *)
Definition allOfString : Property := compositeOnly AllOf [stringProperty].

(** [{type: "foo"}] *)
Definition fooProperty : Property :=
  mkProperty None None None None (Some "foo") None None None None None.

(** [{type: object, properties: {a: {type: string}, b: {type: "foo"}}}] *)
Definition validThenInvalid : Property :=
  objectWith [("a", stringProperty); ("b", fooProperty)].

(** [{$ref: "#/components/schemas/A", allOf: [{$ref: "#/components/schemas/B"}],
      oneOf: []}] *)
Definition referenceWithComposites : Property :=
  mkProperty (Some "#/components/schemas/A") (Some [referenceTo "B"]) (Some [])
    None None None None None None None.

(** [{allOf: [{$ref: "#/components/schemas/B"}], oneOf: [{type: string}]}] *)
Definition allOfWithOneOf : Property :=
  mkProperty None (Some [referenceTo "B"]) (Some [stringProperty])
    None None None None None None None.

Definition integerProperty : Property :=
  mkProperty None None None None (Some "integer") None None None None None.

(** [{anyOf: [{type: string}, {type: integer}]}] *)
Definition stringOrInteger : Property :=
  compositeOnly AnyOf [stringProperty; integerProperty].

(** [export type Pet={"name":string,"age"?:(number|null)}] *)
Definition petDeclaration : string :=
  "export type Pet={" ++ dquote ++ "name" ++ dquote ++ ":string,"
  ++ dquote ++ "age" ++ dquote ++ "?:(number|null)}".

(** The line ["use strict";] that the TypeScript generator puts first. *)
Definition useStrictHeader : string :=
  dquote ++ "use strict" ++ dquote ++ ";" ++ newline.

Definition document (version : string) (schemas' : list (string * Property))
    : Swagger :=
  mkSwagger version (Some (mkComponents schemas')).

Definition petDocument (version : string) : Swagger :=
  document version petSchemas.

(** [{Owner: {type: array, items: {$ref: "#/components/schemas/Pet"}}}] *)
Definition ownerSchemas : list (string * Property) :=
  [("Owner",
    mkProperty None None None None (Some "array") (Some (referenceTo "Pet"))
      None None None None)].

(** [{Status: {type: string, enum: ["open", "closed"]}}] *)
Definition statusSchemas : list (string * Property) :=
  [("Status",
    mkProperty None None None None (Some "string") None
      (Some ["open"; "closed"]) None None None)].

(** ** Notions of the further properties *)

(** What a call came to, the rendered text left aside: it did not return,
    it failed with an error, or it succeeded. *)
Definition outcome {Err A} (result : option (Either Err A))
    : option (Either Err unit) :=
  option_map (E.map (fun _ => tt)) result.

(** A field as the TypeScript table renders it: the quoted key, a question
    mark unless the field is required, a colon and the type. *)
Definition typeScriptField (key : string) (isRequired' : bool) (type' : string)
    : string :=
  dquote ++ key ++ dquote ++ (if isRequired' then "" else "?") ++ ":" ++ type'.

(** [Pet={"name":string,"age"?:(number|null)}] *)
Definition petDeclarationBody : string :=
  "Pet={" ++ dquote ++ "name" ++ dquote ++ ":string,"
  ++ dquote ++ "age" ++ dquote ++ "?:(number|null)}".

(** [{type: array}], without the items key *)
Definition arrayWithoutItems : Property :=
  mkProperty None None None None (Some "array") None None None None None.

(** [{type: array, items: {type: string}}] *)
Definition stringArray : Property :=
  mkProperty None None None None (Some "array") (Some stringProperty)
    None None None None.

(** * The older build [bin/generate.js]

    The build renders the types itself, without generator tables; it knows
    the output types TypeScript and Flow (every output type but TypeScript
    is rendered as Flow).  [fixErrorsOnProperty], [isRequired],
    [getDefinitions] and [checkOpenApiVersion] are the text of the engine
    above and are shared. *)

Module Legacy.

(** [pipe(x, f, g)] as [flow(f, g)(x)] *)
#[local] Notation "f >>> g" := (fun x => g (f x))
  (at level 45, left associativity, only parsing).

Section Build.

(** [String.prototype.toUpperCase], which the build applies to the first
    character of a token. *)
Variable toUpperCase : string -> string.

(** [key.split("-")] *)
Fixpoint split (key : string) : list string :=
  match key with
  | EmptyString => [EmptyString]
  | String c rest =>
      if Ascii.eqb c "-" then EmptyString :: split rest
      else match split rest with
           | token :: tokens => String c token :: tokens
           | [] => [String c EmptyString]
           end
  end.

(** [token[0].toUpperCase() + token.slice(1)]: [token[0]] of the empty
    token is [undefined], and the call does not return. *)
Definition capitalize (token : string) : option string :=
  match token with
  | EmptyString => None
  | String c rest => Some (toUpperCase (String c EmptyString) ++ rest)
  end.

(** [Array.prototype.map] with a callback that may not return. *)
Fixpoint mapReturned {A B} (f : A -> option B) (l : list A) : option (list B) :=
  match l with
  | [] => Some []
  | a :: l' =>
      b <- f a ;;
      bs <- mapReturned f l' ;;
      Some (b :: bs)
  end.

Definition toCamelCase (key : string) : option string :=
  tokens <- mapReturned capitalize (split key) ;;
  Some (String.concat "" tokens).

Definition getReferenceName (reference : string) : option string :=
  toCamelCase (replace "#/components/schemas/" "" reference).

Definition isTypeScript (options : Options) : bool :=
  match outputType options with
  | TypeScript => true
  | _ => false
  end.

Definition getExactObject (options : Options) (properties' : list string) : string :=
  if isTypeScript options
  then "{" ++ String.concat "," properties' ++ "}"
  else "{|" ++ String.concat "," properties' ++ "|}".

Definition concatKeyAndType (key : string) (isRequired' : bool) (type' : string)
    : string :=
  "" ++ key ++ (if isRequired' then "" else "?") ++ ":" ++ type'.

Definition getTypeUnknown (options : Options) : string :=
  if isTypeScript options then "unknown" else "mixed".

Definition getTypeNullable (property : Property) (type' : string) : string :=
  match nullable property with
  | Some true => "(" ++ type' ++ "|null)"
  | _ => type'
  end.

(** The body of [getType], with the recursive occurrences of [getType]
    taken from the section variable. *)
Section Step.

Variable getType : Options -> Property -> option TypeResult.

Definition getTypeObject (options : Options)
    (properties' : option (list (string * Property)))
    (required' : option (list string)) : option TypeResult :=
  option_map (E.map (getExactObject options))
    (traverseArray
       (fun '(key, property) =>
          option_map (E.map (concatKeyAndType key (isRequired key required')))
            (getType options property))
       (match properties' with
        | Some fields => fields
        | None => []
        end)).

Definition getInvalidType (options : Options) (property : Property) : TypeResult :=
  if exitOnInvalidType options
  then left (InvalidType property)
  else right (getTypeUnknown options).

(** The branch under ["type" in property]; [None] stands for the fall
    through to the last statement of the function. *)
Definition getTypeByType (options : Options) (property : Property) (type' : string)
    : option (option TypeResult) :=
  if String.eqb type' "array"
  then Some (item <- items property ;;
             option_map (E.map (getTypeNullable property))
               (option_map (E.map (fun t => "Array<" ++ t ++ ">"))
                  (getType options item)))
  else if String.eqb type' "string" && has (enum property)
  then Some (values <- enum property ;;
             Some (right
                     (getTypeNullable property
                        (String.concat "|"
                           (List.map (fun enumValue => "'" ++ enumValue ++ "'")
                              values)))))
  else if existsb (String.eqb type') ["boolean"; "number"; "null"; "string"]
  then Some (Some (right (getTypeNullable property type')))
  else if String.eqb type' "integer"
  then Some (Some (right (getTypeNullable property "number")))
  else if String.eqb type' "object"
  then Some (option_map (E.map (getTypeNullable property))
               (getTypeObject options (properties property) (required property)))
  else None.

Definition composite (options : Options) (property : Property)
    (separator : string) (members : list Property) : option TypeResult :=
  option_map (E.map (getTypeNullable property))
    (option_map (E.map (String.concat separator))
       (traverseArray (getType options) members)).

Definition getTypeStep (options : Options) (original : Property)
    : option TypeResult :=
  let property := fixErrorsOnProperty original in
  match ref property, allOf property, anyOf property, oneOf property with
  | Some reference, _, _, _ =>
      name <- getReferenceName reference ;;
      Some (right (getTypeNullable property name))
  | None, Some members, _, _ => composite options property "&" members
  | None, None, Some members, _ => composite options property "|" members
  | None, None, None, Some members => composite options property "|" members
  | None, None, None, None =>
      match
        match type property with
        | Some type' => getTypeByType options property type'
        | None => None
        end
      with
      | Some result => result
      | None => Some (getInvalidType options property)
      end
  end.

End Step.

Fixpoint getTypeFuel (fuel : nat) (options : Options) (property : Property)
    : option TypeResult :=
  match fuel with
  | O => None
  | S fuel' => getTypeStep (getTypeFuel fuel') options property
  end.

Definition getType (options : Options) (property : Property) : option TypeResult :=
  getTypeFuel (weight property) options property.

(** The callback of [E.map] runs on a translated schema only: the key of a
    schema whose translation failed is not converted. *)
Definition getTypesFromSchemas (options : Options)
    (schemas' : list (string * Property)) : option (Either Error (list string)) :=
  traverseArray
    (fun '(key, property) =>
       result <- getType options property ;;
       match result with
       | left e => Some (left e)
       | right type' =>
           name <- toCamelCase key ;;
           Some (right (name ++ "=" ++ type'))
       end)
    schemas'.

Definition generate (options : Options) : Swagger -> option (Either Error string) :=
  checkOpenApiVersion
  >>> E.chain getDefinitions
  >>> chainReturned (getTypesFromSchemas options)
  >>> option_map
        (E.map
           (fun properties' =>
              String.concat ";"
                (List.map (fun prop => "export type " ++ prop) properties'))).

End Build.

End Legacy.

(** Upper case of the ASCII letters, for the closed examples of the older
    build. *)
Fixpoint asciiUpper (s : string) : string :=
  match s with
  | EmptyString => EmptyString
  | String c rest =>
      let n := nat_of_ascii c in
      String (if Nat.leb 97 n && Nat.leb n 122 then ascii_of_nat (n - 32) else c)
        (asciiUpper rest)
  end.

(** The capitalized token of [Legacy.capitalize], for the tokens on which
    it returns. *)
Definition capitalized (toUpperCase : string -> string) (token : string) : string :=
  match token with
  | EmptyString => EmptyString
  | String c rest => toUpperCase (String c EmptyString) ++ rest
  end.

(** [{type: "null"}] *)
Definition nullProperty : Property :=
  mkProperty None None None None (Some "null") None None None None None.


(** * Properties *)

(** ** Traversal *)

Section TraverseFacts.

Context {Err A B : Type}.
Variable f : A -> option (Either Err B).

Lemma traverseFrom_ext (g : A -> option (Either Err B)) ta :
  (forall a, In a ta -> f a = g a) ->
  forall fbs, traverseFrom f fbs ta = traverseFrom g fbs ta.
Proof.
  induction ta as [|a ta IH]; intros Hfg fbs; simpl; [reflexivity|].
  rewrite <- (Hfg a (or_introl eq_refl)).
  destruct (f a) as [fb|]; simpl; [|reflexivity].
  apply IH. intros x Hx. apply Hfg. right. exact Hx.
Qed.

Lemma traverseFrom_left e ta :
  Forall (returns f) ta -> traverseFrom f (left e) ta = Some (left e).
Proof.
  induction 1 as [|a ta Ha _ IH]; simpl; [reflexivity|].
  unfold returns in Ha. destruct (f a) as [fb|]; [|contradiction].
  simpl. exact IH.
Qed.

Lemma traverseFrom_right ta : forall acc bs,
  Forall2 (succeeds f) ta bs ->
  traverseFrom f (right acc) ta = Some (right (acc ++ bs)%list).
Proof.
  induction ta as [|a ta IH]; intros acc bs Hall; inversion Hall; subst; simpl.
  - rewrite app_nil_r. reflexivity.
  - match goal with Hs : succeeds f a _ |- _ => rewrite Hs end. simpl.
    erewrite IH by eassumption. rewrite <- app_assoc. reflexivity.
Qed.

Lemma traverseFrom_first_left pre a post e : forall acc bs,
  Forall2 (succeeds f) pre bs ->
  f a = Some (left e) ->
  Forall (returns f) post ->
  traverseFrom f (right acc) (pre ++ a :: post) = Some (left e).
Proof.
  induction pre as [|x pre IH]; intros acc bs Hpre Ha Hpost;
    inversion Hpre; subst; simpl.
  - rewrite Ha. simpl. apply traverseFrom_left. exact Hpost.
  - match goal with Hs : succeeds f x _ |- _ => rewrite Hs end. simpl.
    eapply IH; eassumption.
Qed.

Lemma traverseArray_right ta bs :
  Forall2 (succeeds f) ta bs -> traverseArray f ta = Some (right bs).
Proof. intro Hall. apply (traverseFrom_right ta [] bs Hall). Qed.

Lemma traverseArray_first_left pre a post bs e :
  Forall2 (succeeds f) pre bs ->
  f a = Some (left e) ->
  Forall (returns f) post ->
  traverseArray f (pre ++ a :: post) = Some (left e).
Proof. intros. eapply (traverseFrom_first_left pre a post e []); eassumption. Qed.

End TraverseFacts.

Lemma traverseArray_ext {Err A B} (f g : A -> option (Either Err B)) ta :
  (forall a, In a ta -> f a = g a) -> traverseArray f ta = traverseArray g ta.
Proof. intro Hfg. apply traverseFrom_ext. exact Hfg. Qed.

(** ** Normalization *)

Lemma fixErrorsOnProperty_untyped p :
  type p = None -> fixErrorsOnProperty p = p.
Proof.
  intro Ht. unfold fixErrorsOnProperty. rewrite Ht. simpl.
  rewrite !andb_false_r. reflexivity.
Qed.

Lemma fixErrorsOnProperty_allOf_untyped p members :
  allOf (fixErrorsOnProperty p) = Some members ->
  type (fixErrorsOnProperty p) = None.
Proof.
  destruct p as [r a o n t i e ps rq nl].
  unfold fixErrorsOnProperty; simpl.
  destruct a, o, n, t; simpl; intro H; try reflexivity; discriminate H.
Qed.

Lemma fixErrorsOnProperty_plain p :
  allOf p = None -> oneOf p = None -> anyOf p = None ->
  fixErrorsOnProperty p = p.
Proof.
  intros Ha Ho Hn. unfold fixErrorsOnProperty. rewrite Ha, Ho, Hn. reflexivity.
Qed.

(** ** The bound of [getTypeFuel] *)

Lemma list_sum_In (ws : list nat) w : In w ws -> w <= list_sum ws.
Proof.
  induction ws as [|x ws IH]; simpl; [contradiction|].
  intros [->|Hin]; [lia|]. specialize (IH Hin). lia.
Qed.

Lemma weightMembers_In members ms c :
  members = Some ms -> In c ms -> weight c < weightMembers weight members.
Proof.
  intros -> Hin. simpl.
  pose proof (list_sum_In (List.map weight ms) (weight c) (in_map weight ms c Hin)).
  lia.
Qed.

Lemma weight_fields_In (fields : list (string * Property)) key c :
  In (key, c) fields ->
  weight c <= list_sum (List.map (fun '(_, child) => weight child) fields).
Proof.
  intro Hin. apply list_sum_In.
  change (weight c) with ((fun '(_, child) => weight child) (key, c)).
  apply in_map. exact Hin.
Qed.

Lemma children_weight p c : In c (children p) -> weight c < weight p.
Proof.
  destruct p as [r a o n t i e ps rq nl]. unfold children. simpl.
  rewrite !in_app_iff. intros [H|[H|[H|[H|H]]]].
  - destruct a as [ms|]; [|contradiction].
    pose proof (weightMembers_In (Some ms) ms c eq_refl H). lia.
  - destruct o as [ms|]; [|contradiction].
    pose proof (weightMembers_In (Some ms) ms c eq_refl H). lia.
  - destruct n as [ms|]; [|contradiction].
    pose proof (weightMembers_In (Some ms) ms c eq_refl H). lia.
  - destruct i as [item|]; [|contradiction].
    destruct H as [->|[]]. lia.
  - destruct ps as [fields|]; [|contradiction].
    apply in_map_iff in H. destruct H as [[key c'] [Heq Hin]]. simpl in Heq. subst c'.
    pose proof (weight_fields_In fields key c Hin). lia.
Qed.

Lemma otherProperties_weight key p ms :
  membersOf key p = Some ms ->
  weight (otherProperties key p) < weight p.
Proof.
  destruct p as [r a o n t i e ps rq nl]. destruct key; simpl; intros ->; simpl; lia.
Qed.

Lemma moveSiblings_children key p ms c :
  membersOf key p = Some ms ->
  In c (children (moveSiblings key (Some ms) p)) -> weight c < weight p.
Proof.
  unfold membersOf. intros Hms Hin.
  assert (Hc : In c ms \/ c = otherProperties key p).
  { destruct key; unfold children in Hin; simpl in Hin;
      rewrite ?app_nil_r in Hin; apply in_app_iff in Hin;
      destruct Hin as [Hin|[Hin|[]]]; auto. }
  destruct Hc as [Hc| ->].
  - apply children_weight. unfold children.
    destruct key; rewrite Hms; rewrite !in_app_iff; auto.
  - eapply otherProperties_weight. exact Hms.
Qed.

Lemma fixErrorsOnProperty_children p c :
  In c (children (fixErrorsOnProperty p)) -> weight c < weight p.
Proof.
  unfold fixErrorsOnProperty.
  destruct (allOf p) as [ms|] eqn:Ha; simpl.
  - destruct (has (type p)).
    + apply (moveSiblings_children AllOf); exact Ha.
    + destruct (has (oneOf p)), (has (anyOf p)); simpl; apply children_weight.
  - destruct (oneOf p) as [ms|] eqn:Ho; simpl.
    + destruct (has (type p)).
      * apply (moveSiblings_children OneOf); exact Ho.
      * destruct (has (anyOf p)); simpl; apply children_weight.
    + destruct (anyOf p) as [ms|] eqn:Hn; simpl.
      * destruct (has (type p)).
        -- apply (moveSiblings_children AnyOf); exact Hn.
        -- apply children_weight.
      * apply children_weight.
Qed.

Section EngineFacts.

Context {environment : Environment}.

Lemma getTypeStep_dispatch g options p :
  getTypeStep g options p
  = wrapNullable options p (dispatch g options (fixErrorsOnProperty p)).
Proof.
  unfold getTypeStep, dispatch, classify, getTypeRef, getTypeAllOf, getTypeAnyOf,
    getTypeOneOf, getTypeArray, getTypeObject, getTypeEnum, getTypeNumber,
    getTypeString, getTypeBoolean, getTypeInteger, getPropertyHandler.
  set (q := fixErrorsOnProperty p).
  repeat match goal with
         | |- context [if ?guard q then _ else _] =>
             destruct (guard q); simpl; try reflexivity
         end.
Qed.

Lemma handle_ext g1 g2 variant options q :
  (forall c, In c (children q) -> g1 options c = g2 options c) ->
  handle g1 variant options q = handle g2 variant options q.
Proof.
  intro Hc.
  assert (Hm : forall ms, incl ms (children q) ->
            traverseArray (g1 options) ms = traverseArray (g2 options) ms).
  { intros ms Hincl. apply traverseArray_ext.
    intros c Hin. apply Hc, Hincl, Hin. }
  destruct variant; try reflexivity; simpl.
  - unfold handleAllOf. destruct (allOf q) as [ms|] eqn:Hq; simpl; [|reflexivity].
    rewrite (Hm ms); [reflexivity|].
    intros c Hin. unfold children. rewrite Hq. rewrite !in_app_iff. auto.
  - unfold handleAnyOf. destruct (anyOf q) as [ms|] eqn:Hq; simpl; [|reflexivity].
    rewrite (Hm ms); [reflexivity|].
    intros c Hin. unfold children. rewrite Hq. rewrite !in_app_iff. auto.
  - unfold handleOneOf. destruct (oneOf q) as [ms|] eqn:Hq; simpl; [|reflexivity].
    rewrite (Hm ms); [reflexivity|].
    intros c Hin. unfold children. rewrite Hq. rewrite !in_app_iff. auto.
  - unfold handleArray. destruct (items q) as [item|] eqn:Hq; simpl; [|reflexivity].
    rewrite Hc; [reflexivity|].
    unfold children. rewrite Hq. rewrite !in_app_iff. simpl. auto 10.
  - unfold handleObject. f_equal. apply traverseArray_ext.
    intros [key c] Hin. unfold handleField. rewrite Hc; [reflexivity|].
    unfold children, entries in *. rewrite !in_app_iff. do 4 right.
    apply in_map_iff. exists (key, c). split; [reflexivity|exact Hin].
Qed.

Lemma dispatch_ext g1 g2 options q :
  (forall c, In c (children q) -> g1 options c = g2 options c) ->
  dispatch g1 options q = dispatch g2 options q.
Proof. intro Hc. unfold dispatch. apply handle_ext. exact Hc. Qed.

Lemma getTypeStep_ext g1 g2 options p :
  (forall o c, weight c < weight p -> g1 o c = g2 o c) ->
  getTypeStep g1 options p = getTypeStep g2 options p.
Proof.
  intro Hg. rewrite !getTypeStep_dispatch. f_equal. apply dispatch_ext.
  intros c Hin. apply Hg, fixErrorsOnProperty_children, Hin.
Qed.

Lemma weight_positive p : 0 < weight p.
Proof. destruct p; simpl; lia. Qed.

Lemma getTypeFuel_stable n : forall m options p,
  weight p <= n -> n <= m -> getTypeFuel m options p = getTypeFuel n options p.
Proof.
  induction n as [|n IH]; intros m options p Hw Hm.
  - pose proof (weight_positive p). lia.
  - destruct m as [|m]; [lia|]. simpl. apply getTypeStep_ext.
    intros o c Hc. apply IH; lia.
Qed.

(** Any bound from the weight of the property on gives the result of
    [getType]: the bound never cuts a translation short. *)
Lemma getTypeFuel_enough fuel options p :
  weight p <= fuel -> getTypeFuel fuel options p = getType options p.
Proof. intro Hw. unfold getType. apply getTypeFuel_stable; [lia|exact Hw]. Qed.

(** [getType] satisfies the recursive equation of the source. *)
Lemma getType_unfold options p :
  getType options p = getTypeStep getType options p.
Proof.
  unfold getType at 1. pose proof (weight_positive p) as Hp.
  destruct (weight p) as [|n] eqn:Hw; [lia|]. simpl.
  apply getTypeStep_ext. intros o c Hc.
  apply getTypeFuel_enough. lia.
Qed.

Lemma getType_dispatch options p :
  getType options p
  = wrapNullable options p (dispatch getType options (fixErrorsOnProperty p)).
Proof. rewrite getType_unfold. apply getTypeStep_dispatch. Qed.

End EngineFacts.

(** ** Claims on normalization *)

(** C7: normalization is idempotent: normalizing a normalized property
    changes nothing. *)
Theorem normalize_idempotent (p : Property) :
  fixErrorsOnProperty (fixErrorsOnProperty p) = fixErrorsOnProperty p.
Proof.
  destruct p as [r a o n t i e ps rq nl].
  unfold fixErrorsOnProperty; simpl.
  destruct a, o, n, t; reflexivity.
Qed.

Section NormalizationClaims.

Context {environment : Environment}.


End NormalizationClaims.


Section TraverseInversion.

Context {Err A B : Type}.
Variable f : A -> option (Either Err B).

Lemma traverseFrom_inv_left ta : forall fbs e,
  traverseFrom f fbs ta = Some (left e) ->
  fbs = left e \/ exists a, In a ta /\ f a = Some (left e).
Proof.
  induction ta as [|a ta IH]; intros fbs e Heq; simpl in Heq.
  - left. congruence.
  - destruct (f a) as [fb|] eqn:Hfa; simpl in Heq; [|discriminate].
    destruct (IH _ _ Heq) as [Hacc|[x [Hin Hx]]].
    + destruct fbs as [e0|bs]; simpl in Hacc.
      * left. exact Hacc.
      * destruct fb as [e1|b]; simpl in Hacc; [|discriminate].
        right. exists a. split; [left; reflexivity|]. congruence.
    + right. exists x. split; [right; exact Hin|exact Hx].
Qed.

Lemma traverseArray_inv_left ta e :
  traverseArray f ta = Some (left e) ->
  exists a, In a ta /\ f a = Some (left e).
Proof.
  intro Heq. destruct (traverseFrom_inv_left ta _ _ Heq) as [Habs|Hex].
  - discriminate.
  - exact Hex.
Qed.

End TraverseInversion.

Section TranslationFacts.

Context {environment : Environment}.

Lemma wrapNullable_right options p t :
  wrapNullable options p (Some (right t))
  = Some (right (doIf (isNullable p)
                   (Generator.makeTypeNullable (getGenerator options)) t)).
Proof. reflexivity. Qed.

Lemma wrapNullable_left options p e :
  wrapNullable options p (Some (left e)) = Some (left e).
Proof. reflexivity. Qed.

Lemma dispatch_composite g options q key members :
  classify q = variantOf key ->
  membersOf key q = Some members ->
  dispatch g options q
  = option_map (E.map (renderComposite (getGenerator options) key))
      (traverseArray (g options) members).
Proof.
  intros Hc Hm. unfold dispatch. rewrite Hc.
  destruct key; simpl in *;
    unfold handleAllOf, handleOneOf, handleAnyOf; rewrite Hm; reflexivity.
Qed.



Lemma handleField_returns g options q field :
  g options (snd field) <> None -> handleField g options q field <> None.
Proof.
  destruct field as [key child]. simpl. unfold handleField.
  destruct (g options child); simpl; congruence.
Qed.

Lemma getType_invalid options p :
  classify (fixErrorsOnProperty p) = VInvalid ->
  getType options p
  = wrapNullable options p (Some (getInvalidType options (fixErrorsOnProperty p))).
Proof.
  intro Hc. rewrite getType_dispatch. unfold dispatch. rewrite Hc. reflexivity.
Qed.

End TranslationFacts.

(** ** [getType] returns on typed input *)

Section Totality.

Context {environment : Environment}.

Lemma traverseFrom_returns {Err A B} (f : A -> option (Either Err B)) ta :
  Forall (returns f) ta -> forall fbs, traverseFrom f fbs ta <> None.
Proof.
  induction 1 as [|a ta Ha _ IH]; intro fbs; simpl; [discriminate|].
  unfold returns in Ha. destruct (f a) as [fb|]; [|contradiction].
  simpl. apply IH.
Qed.

Lemma arraysHaveItems_children q c :
  arraysHaveItems q = true -> In c (children q) -> arraysHaveItems c = true.
Proof.
  destruct q as [r a o n t i e ps rq nl]. unfold children. simpl.
  rewrite !andb_true_iff. intros [[[[Ha Ho] Hn] Hi] Hps].
  rewrite !in_app_iff. intros [H|[H|[H|[H|H]]]].
  - destruct a as [ms|]; [|contradiction]. simpl in Ha.
    rewrite forallb_forall in Ha. apply Ha, H.
  - destruct o as [ms|]; [|contradiction]. simpl in Ho.
    rewrite forallb_forall in Ho. apply Ho, H.
  - destruct n as [ms|]; [|contradiction]. simpl in Hn.
    rewrite forallb_forall in Hn. apply Hn, H.
  - destruct i as [item|]; [|contradiction]. destruct H as [<-|[]]. exact Hi.
  - destruct ps as [fields|]; [|contradiction].
    apply in_map_iff in H. destruct H as [[key c'] [Heq Hin]]. simpl in Heq. subst c'.
    rewrite forallb_forall in Hps. apply (Hps (key, c) Hin).
Qed.

Lemma arraysHaveItems_fixErrorsOnProperty p :
  arraysHaveItems p = true -> arraysHaveItems (fixErrorsOnProperty p) = true.
Proof.
  destruct p as [r a o n t i e ps rq nl].
  unfold fixErrorsOnProperty. simpl.
  rewrite !andb_true_iff. intros [[[[Ha Ho] Hn] Hi] Hps].
  destruct a as [ms|], o as [ms'|], n as [ms''|], t as [t|]; simpl in *;
    rewrite ?forallb_app, ?andb_true_iff; simpl;
    rewrite ?andb_true_iff; repeat split; auto.
Qed.

Lemma handle_returns g variant options q :
  classify q = variant ->
  arraysHaveItems q = true ->
  (forall c, In c (children q) -> g options c <> None) ->
  handle g variant options q <> None.
Proof.
  intros Hc Hq Hg.
  assert (Hm : forall ms, incl ms (children q) ->
            traverseArray (g options) ms <> None).
  { intros ms Hincl. apply traverseFrom_returns. apply Forall_forall.
    intros c Hin. apply Hg, Hincl, Hin. }
  unfold classify in Hc.
  destruct (isReference q) eqn:Href.
  { subst variant. simpl. unfold handleReference, isReference in *.
    destruct (ref q); [discriminate|discriminate Href]. }
  destruct (isValidAllOf q) eqn:Hall.
  { subst variant. simpl. unfold handleAllOf, isValidAllOf, isAllOf in *.
    destruct (allOf q) as [ms|] eqn:Hms; [|discriminate Hall]. simpl.
    specialize (Hm ms). destruct (traverseArray (g options) ms); [discriminate|].
    exfalso. apply Hm; [|reflexivity].
    intros c Hin. unfold children. rewrite Hms, !in_app_iff. auto. }
  destruct (isAnyOf q) eqn:Hany.
  { subst variant. simpl. unfold handleAnyOf, isAnyOf in *.
    destruct (anyOf q) as [ms|] eqn:Hms; [|discriminate Hany]. simpl.
    specialize (Hm ms). destruct (traverseArray (g options) ms); [discriminate|].
    exfalso. apply Hm; [|reflexivity].
    intros c Hin. unfold children. rewrite Hms, !in_app_iff. auto. }
  destruct (isOneOf q) eqn:Hone.
  { subst variant. simpl. unfold handleOneOf, isOneOf in *.
    destruct (oneOf q) as [ms|] eqn:Hms; [|discriminate Hone]. simpl.
    specialize (Hm ms). destruct (traverseArray (g options) ms); [discriminate|].
    exfalso. apply Hm; [|reflexivity].
    intros c Hin. unfold children. rewrite Hms, !in_app_iff. auto. }
  destruct (isArray q) eqn:Harr.
  { subst variant. simpl. unfold handleArray.
    destruct (items q) as [item|] eqn:Hitem; simpl.
    - specialize (Hg item). destruct (g options item); [discriminate|].
      exfalso. apply Hg; [|reflexivity].
      unfold children. rewrite Hitem, !in_app_iff. simpl. auto 10.
    - exfalso. destruct q as [r a o n t i e ps rq nl].
      unfold isArray, typeIs in Harr. simpl in *. subst i.
      rewrite !andb_true_iff in Hq. destruct Hq as [[_ Hi] _].
      rewrite Harr in Hi. discriminate Hi. }
  destruct (isObject q) eqn:Hobj.
  { subst variant. simpl. unfold handleObject.
    destruct (traverseArray (handleField g options q) (entries q)) eqn:Htr;
      [discriminate|].
    exfalso. revert Htr. apply traverseFrom_returns. apply Forall_forall.
    intros [key c] Hin. apply handleField_returns. simpl. apply Hg.
    unfold children, entries in *. rewrite !in_app_iff. do 4 right.
    apply in_map_iff. exists (key, c). split; [reflexivity|exact Hin]. }
  destruct (isEnum q) eqn:Henum.
  { subst variant. simpl. unfold handleEnum, isEnum in *.
    apply andb_true_iff in Henum. destruct Henum as [_ Henum].
    destruct (enum q); [discriminate|discriminate Henum]. }
  destruct (isNumber q); [subst variant; discriminate|].
  destruct (isString q); [subst variant; discriminate|].
  destruct (isBoolean q); [subst variant; discriminate|].
  destruct (isInteger q); subst variant; discriminate.
Qed.

Lemma getType_returns_bounded options n : forall p,
  weight p <= n -> arraysHaveItems p = true -> getType options p <> None.
Proof.
  induction n as [|n IH]; intros p Hw Hp.
  - pose proof (weight_positive p). lia.
  - rewrite getType_dispatch. unfold wrapNullable, dispatch.
    assert (Hh : handle getType (classify (fixErrorsOnProperty p)) options
                   (fixErrorsOnProperty p) <> None).
    { apply handle_returns.
      - reflexivity.
      - apply arraysHaveItems_fixErrorsOnProperty. exact Hp.
      - intros c Hin. apply IH.
        + pose proof (fixErrorsOnProperty_children p c Hin). lia.
        + eapply arraysHaveItems_children; [|exact Hin].
          apply arraysHaveItems_fixErrorsOnProperty. exact Hp. }
    destruct (handle getType (classify (fixErrorsOnProperty p)) options
                (fixErrorsOnProperty p)); [discriminate|congruence].
Qed.

(** On a property tree in which every array has its items, [getType]
    returns: a rendered type or a failure, never an escaped exception (and
    never for want of recursion bound). *)
Theorem getType_returns options p :
  arraysHaveItems p = true -> exists result, getType options p = Some result.
Proof.
  intro Hp. pose proof (getType_returns_bounded options (weight p) p (le_n _) Hp).
  destruct (getType options p) as [result|]; [exists result; reflexivity|congruence].
Qed.

End Totality.

Section TranslationClaims.

Context {environment : Environment}.

(** C3 (amended): a property that the chain of handlers takes as a
    composite (anyOf, oneOf, or an allOf whose members are all references or
    objects) is translated member by member in declared order: when every
    member succeeds the result is the intersection (allOf) or union (anyOf,
    oneOf) of the rendered members in that order, wrapped when the property
    is nullable; when a member fails after members that succeeded, and the
    calls on the later members return, that failure is the result.  An
    allOf with a member that is neither a reference nor an object is not
    taken as AllOf, and goes to the invalid-type branch when it has no
    other key that a handler accepts. *)
Theorem composite_translation options p :
  (forall key members,
      classify (fixErrorsOnProperty p) = variantOf key ->
      membersOf key (fixErrorsOnProperty p) = Some members ->
      (forall types,
          Forall2 (succeeds (getType options)) members types ->
          getType options p
          = Some (right
              (doIf (isNullable p)
                 (Generator.makeTypeNullable (getGenerator options))
                 (renderComposite (getGenerator options) key types))))
      /\ (forall before member after types e,
            members = (before ++ member :: after)%list ->
            Forall2 (succeeds (getType options)) before types ->
            getType options member = Some (left e) ->
            Forall (returns (getType options)) after ->
            getType options p = Some (left e)))
  /\ (forall members,
        allOf (fixErrorsOnProperty p) = Some members ->
        forallb (fun member => isReference member || isObject member) members
        = false ->
        classify (fixErrorsOnProperty p) <> VAllOf
        /\ (ref (fixErrorsOnProperty p) = None ->
            anyOf (fixErrorsOnProperty p) = None ->
            oneOf (fixErrorsOnProperty p) = None ->
            getType options p
            = wrapNullable options p
                (Some (getInvalidType options (fixErrorsOnProperty p))))).
Proof.
  split.
  - intros key members Hc Hm.
    rewrite getType_dispatch, (dispatch_composite _ _ _ key members Hc Hm).
    split.
    + intros types Hall. rewrite (traverseArray_right _ _ _ Hall). reflexivity.
    + intros before member after types e -> Hbefore Hmember Hafter.
      rewrite (traverseArray_first_left _ _ _ _ _ _ Hbefore Hmember Hafter).
      reflexivity.
  - intros members Ha Hv.
    set (q := fixErrorsOnProperty p) in *.
    assert (Hinvalid : isValidAllOf q = false).
    { unfold isValidAllOf. rewrite Ha, Hv. apply andb_false_r. }
    split.
    + unfold classify. rewrite Hinvalid.
      destruct (isReference q); [discriminate|].
      repeat match goal with
             | |- context [if ?guard q then _ else _] =>
                 destruct (guard q); try discriminate
             end.
    + intros Hr Hn Ho.
      pose proof (fixErrorsOnProperty_allOf_untyped p members Ha) as Ht.
      apply getType_invalid. fold q. fold q in Ht.
      unfold classify. rewrite Hinvalid.
      unfold isReference, isAnyOf, isOneOf, isArray, isObject, isEnum,
        isNumber, isString, isBoolean, isInteger, typeIs.
      rewrite Hr, Hn, Ho, Ht. reflexivity.
Qed.


(** C10 (amended): a property with an allOf key next to oneOf or anyOf, no
    type key and no $ref key, whose allOf members are each a reference or
    an object, is translated as the allOf alone: the result is the
    intersection of the allOf members (wrapped when nullable), the same as
    without the oneOf and anyOf keys, whatever exitOnInvalidType; a failure
    can only be the failure of an allOf member. *)
Theorem allOf_shadows_unions options p members :
  ref p = None ->
  type p = None ->
  allOf p = Some members ->
  oneOf p <> None \/ anyOf p <> None ->
  forallb (fun member => isReference member || isObject member) members = true ->
  getType options p
  = wrapNullable options p
      (option_map (E.map (Generator.getTypeAllOf (getGenerator options)))
         (traverseArray (getType options) members))
  /\ getType options p = getType options (withoutUnions p)
  /\ forall e, getType options p = Some (left e) ->
       exists member, In member members /\ getType options member = Some (left e).
Proof.
  intros Hr Ht Ha _ Hv.
  assert (Hmain : forall q, ref q = None -> type q = None -> allOf q = Some members ->
            nullable q = nullable p ->
            getType options q
            = wrapNullable options p
                (option_map (E.map (Generator.getTypeAllOf (getGenerator options)))
                   (traverseArray (getType options) members))).
  { intros q Hqr Hqt Hqa Hqn.
    rewrite getType_dispatch, (fixErrorsOnProperty_untyped q Hqt).
    rewrite (dispatch_composite _ _ _ AllOf members).
    - unfold wrapNullable, isNullable. rewrite Hqn. reflexivity.
    - unfold classify, isReference, isValidAllOf, isAllOf.
      rewrite Hqr, Hqa. simpl. rewrite Hv. reflexivity.
    - exact Hqa. }
  split; [apply Hmain; auto|]. split.
  - rewrite (Hmain p), (Hmain (withoutUnions p)); auto.
  - intros e He. rewrite (Hmain p) in He by auto.
    destruct (traverseArray (getType options) members) as [[e'|types]|] eqn:Htr;
      simpl in He; try discriminate.
    inversion He; subst e'.
    apply (traverseArray_inv_left _ _ _ Htr).
Qed.

End TranslationClaims.

Section NullableClaims.

Context {environment : Environment}.







End NullableClaims.

Section DriverClaims.

Context {environment : Environment}.

Lemma versionHere_spec s :
  versionHere s = true ->
  exists d rest, s = "3.0." ++ String d rest /\ isDigit d = true.
Proof.
  unfold versionHere. intro H.
  repeat match type of H with
         | match ?x with _ => _ end = true => destruct x; try discriminate H
         end.
  eexists _, _. split; [reflexivity|exact H].
Qed.

Lemma versionMatch_cons c s :
  versionMatch (String c s) = versionHere (String c s) || versionMatch s.
Proof. reflexivity. Qed.

Lemma versionMatch_pattern s :
  versionMatch s = true <-> matchesVersionPattern s.
Proof.
  split.
  - induction s as [|c s IH]; intro H.
    + discriminate H.
    + rewrite versionMatch_cons in H.
      apply orb_true_iff in H. destruct H as [H|H].
      * apply versionHere_spec in H. destruct H as [d [rest [Hs Hd]]].
        exists EmptyString, (String d EmptyString), rest.
        split; [exact Hs|]. split; [discriminate|].
        intros x [<-|[]]. exact Hd.
      * destruct (IH H) as [before [digits [after [Hs Hd]]]].
        exists (String c before), digits, after. split; [|exact Hd].
        simpl. rewrite Hs. reflexivity.
  - intros [before [digits [after [Hs [Hne Hd]]]]]. subst s.
    induction before as [|c before IH].
    + destruct digits as [|d digits]; [congruence|].
      simpl. rewrite (Hd d (or_introl eq_refl)). reflexivity.
    + change (versionMatch (String c (before ++ "3.0." ++ digits ++ after)) = true).
      rewrite versionMatch_cons, IH. apply orb_true_r.
Qed.


Lemma generate_supported options swagger :
  versionMatch (openapi swagger) = true ->
  generate options swagger
  = option_map (E.map (Generator.addHeader (getGenerator options)))
      (chainReturned (definitionsToString options) (getDefinitions swagger)).
Proof.
  intro Hv. unfold generate, checkOpenApiVersion. rewrite Hv. reflexivity.
Qed.




End DriverClaims.

Section EndToEnd.

Context {environment : Environment}.

(** C5 (amended): for a document of a supported version whose schemas are
    the Pet set, the TypeScript run produces the header line "use strict";
    followed by exactly export type Pet={"name":string,"age"?:(number|null)}:
    fields in declaration order, age optional, integer rendered as number
    and wrapped as (number|null). *)
Theorem pet_end_to_end version exit :
  toPascalCase "Pet" = "Pet" ->
  versionMatch version = true ->
  generate (mkOptions TypeScript exit) (petDocument version)
  = Some (right (useStrictHeader ++ petDeclaration)).
Proof.
  intros Hpet Hversion.
  rewrite generate_supported by exact Hversion.
  unfold definitionsToString, baseDefinitionsToString, getTypesFromSchemas.
  cbn. rewrite Hpet. reflexivity.
Qed.

(** The array-of-reference example of the specification, with the
    header that generate puts first. *)
Theorem owner_end_to_end version exit :
  toPascalCase "Owner" = "Owner" ->
  toPascalCase "Pet" = "Pet" ->
  versionMatch version = true ->
  generate (mkOptions TypeScript exit) (document version ownerSchemas)
  = Some (right (useStrictHeader ++ "export type Owner=Array<Pet>")).
Proof.
  intros Howner Hpet Hversion.
  rewrite generate_supported by exact Hversion.
  unfold definitionsToString, baseDefinitionsToString, getTypesFromSchemas.
  cbn. rewrite Howner, Hpet. reflexivity.
Qed.

(** The enum example of the specification, with the header that generate
    puts first. *)
Theorem status_end_to_end version exit :
  toPascalCase "Status" = "Status" ->
  versionMatch version = true ->
  generate (mkOptions TypeScript exit) (document version statusSchemas)
  = Some (right (useStrictHeader ++ "export type Status='open'|'closed'")).
Proof.
  intros Hstatus Hversion.
  rewrite generate_supported by exact Hversion.
  unfold definitionsToString, baseDefinitionsToString, getTypesFromSchemas.
  cbn. rewrite Hstatus. reflexivity.
Qed.

(** Without exitOnInvalidType, a property that no handler accepts is
    translated to the generator's unknown type (wrapped when nullable)
    instead of failing. *)
Theorem unknown_fallback options p :
  exitOnInvalidType options = false ->
  classify (fixErrorsOnProperty p) = VInvalid ->
  getType options p
  = Some (right
      (doIf (isNullable p) (Generator.makeTypeNullable (getGenerator options))
         (Generator.getTypeUnknown (getGenerator options) tt))).
Proof.
  intros Hexit Hc. rewrite (getType_invalid _ _ Hc).
  unfold getInvalidType. rewrite Hexit. reflexivity.
Qed.

(** The version test searches the pattern anywhere in the string: a
    version that merely contains 3.0.<digit> passes. *)
Theorem version_test_unanchored options before after d :
  isDigit d = true ->
  forall swagger,
    openapi swagger = before ++ "3.0." ++ String d after ->
    checkOpenApiVersion swagger = right swagger
    /\ generate options swagger
       = option_map (E.map (Generator.addHeader (getGenerator options)))
           (chainReturned (definitionsToString options) (getDefinitions swagger)).
Proof.
  intros Hd swagger Hv.
  assert (Hm : versionMatch (openapi swagger) = true).
  { apply versionMatch_pattern. exists before, (String d EmptyString), after.
    split; [exact Hv|]. split; [discriminate|].
    intros c [<-|[]]. exact Hd. }
  split.
  - unfold checkOpenApiVersion. rewrite Hm. reflexivity.
  - apply generate_supported. exact Hm.
Qed.

End EndToEnd.

(** * Further properties of the engine *)

(** ** Induction along the calls of [getType] *)

Lemma normalized_children_ind (P : Property -> Prop) :
  (forall p, (forall c, In c (children (fixErrorsOnProperty p)) -> P c) -> P p) ->
  forall p, P p.
Proof.
  intros Hstep p. remember (weight p) as n eqn:Hn. revert p Hn.
  induction n as [n IH] using lt_wf_ind. intros p ->.
  apply Hstep. intros c Hin.
  apply (IH (weight c)); [|reflexivity].
  apply fixErrorsOnProperty_children. exact Hin.
Qed.

Lemma children_allOf q ms c : allOf q = Some ms -> In c ms -> In c (children q).
Proof. intros Hq Hin. unfold children. rewrite Hq, !in_app_iff. auto. Qed.

Lemma children_oneOf q ms c : oneOf q = Some ms -> In c ms -> In c (children q).
Proof. intros Hq Hin. unfold children. rewrite Hq, !in_app_iff. auto. Qed.

Lemma children_anyOf q ms c : anyOf q = Some ms -> In c ms -> In c (children q).
Proof. intros Hq Hin. unfold children. rewrite Hq, !in_app_iff. auto. Qed.

Lemma children_items q item : items q = Some item -> In item (children q).
Proof. intros Hq. unfold children. rewrite Hq, !in_app_iff. simpl. auto 10. Qed.

Lemma children_entries q key c : In (key, c) (entries q) -> In c (children q).
Proof.
  intro Hin. unfold children, entries in *. rewrite !in_app_iff. do 4 right.
  apply in_map_iff. exists (key, c). split; [reflexivity|exact Hin].
Qed.

Section TraverseOutcome.

Context {Err A B : Type}.
Variable f : A -> option (Either Err B).

Lemma traverseFrom_inv_right ta : forall fbs out,
  traverseFrom f fbs ta = Some (right out) ->
  exists acc bs,
    fbs = right acc /\ out = (acc ++ bs)%list /\ Forall2 (succeeds f) ta bs.
Proof.
  induction ta as [|a ta IH]; intros fbs out Heq; simpl in Heq.
  - inversion Heq; subst fbs. exists out, []. rewrite app_nil_r.
    repeat split. constructor.
  - destruct (f a) as [fb|] eqn:Hfa; simpl in Heq; [|discriminate].
    destruct (IH _ _ Heq) as [acc' [bs [Hacc [Hout Hall]]]].
    destruct fbs as [e|acc]; simpl in Hacc; [discriminate|].
    destruct fb as [e|b]; simpl in Hacc; [discriminate|].
    inversion Hacc; subst acc'. exists acc, (b :: bs).
    split; [reflexivity|]. split.
    + rewrite Hout, <- app_assoc. reflexivity.
    + constructor; [exact Hfa|exact Hall].
Qed.

Lemma traverseArray_inv_right ta out :
  traverseArray f ta = Some (right out) -> Forall2 (succeeds f) ta out.
Proof.
  intro Heq. destruct (traverseFrom_inv_right ta _ _ Heq) as [acc [bs [Hacc [-> Hall]]]].
  inversion Hacc; subst acc. exact Hall.
Qed.

Lemma outcome_map {C} (g : B -> C) (r : option (Either Err B)) :
  outcome (option_map (E.map g) r) = outcome r.
Proof. destruct r as [[e|b]|]; reflexivity. Qed.

Lemma traverseFrom_outcome {B'} (g : A -> option (Either Err B')) ta :
  (forall a, In a ta -> outcome (f a) = outcome (g a)) ->
  forall fbs gbs,
    E.map (fun _ => tt) fbs = E.map (fun _ => tt) gbs ->
    outcome (traverseFrom f fbs ta) = outcome (traverseFrom g gbs ta).
Proof.
  induction ta as [|a ta IH]; intros Hfg fbs gbs Hacc; simpl.
  - unfold outcome. simpl. rewrite Hacc. reflexivity.
  - pose proof (Hfg a (or_introl eq_refl)) as Ha.
    destruct (f a) as [fb|], (g a) as [gb|]; simpl in *; try discriminate;
      [|reflexivity].
    apply IH; [intros x Hx; apply Hfg; right; exact Hx|].
    destruct fbs as [e|bs], gbs as [e'|bs']; simpl in *; try discriminate.
    + exact Hacc.
    + destruct fb as [e|b], gb as [e'|b']; simpl in *; try discriminate.
      * inversion Ha. reflexivity.
      * reflexivity.
Qed.

Lemma traverseArray_outcome {B'} (g : A -> option (Either Err B')) ta :
  (forall a, In a ta -> outcome (f a) = outcome (g a)) ->
  outcome (traverseArray f ta) = outcome (traverseArray g ta).
Proof. intro Hfg. apply traverseFrom_outcome; [exact Hfg|reflexivity]. Qed.

End TraverseOutcome.

(** ** Strings *)

Lemma append_assoc (a b c : string) : (a ++ b) ++ c = a ++ b ++ c.
Proof. induction a as [|x a IH]; simpl; [reflexivity|]. rewrite IH. reflexivity. Qed.

Lemma append_empty_r (a : string) : a ++ "" = a.
Proof. induction a as [|x a IH]; simpl; [reflexivity|]. rewrite IH. reflexivity. Qed.

Lemma startsWith_append search s : startsWith search (search ++ s) = true.
Proof.
  induction search as [|c search IH]; simpl; [reflexivity|].
  rewrite Ascii.eqb_refl, IH. reflexivity.
Qed.

Lemma drop_append search s : drop (String.length search) (search ++ s) = s.
Proof. induction search as [|c search IH]; simpl; [destruct s; reflexivity|exact IH]. Qed.

Lemma replace_leading search replacement s :
  replace search replacement (search ++ s) = replacement ++ s.
Proof.
  destruct (search ++ s) as [|c rest] eqn:Hs.
  - simpl. destruct search as [|x search]; [|discriminate Hs].
    simpl in Hs. subst s. reflexivity.
  - rewrite <- Hs. unfold replace. destruct (search ++ s) eqn:Hs'; [congruence|].
    rewrite <- Hs'. rewrite startsWith_append, drop_append. reflexivity.
Qed.

(** ** Normal form *)

Lemma fixErrorsOnProperty_settled p :
  fixErrorsOnProperty (fixErrorsOnProperty p) = fixErrorsOnProperty p.
Proof.
  destruct p as [r a o n t i e ps rq nl].
  unfold fixErrorsOnProperty; simpl.
  destruct a, o, n, t; reflexivity.
Qed.

(** A normalized property never has a type key next to a composite
    keyword, and normalization changes exactly the properties that have
    both. *)
Theorem normalized_never_mixed p :
  (type (fixErrorsOnProperty p) <> None ->
   allOf (fixErrorsOnProperty p) = None
   /\ oneOf (fixErrorsOnProperty p) = None
   /\ anyOf (fixErrorsOnProperty p) = None)
  /\ (fixErrorsOnProperty p = p <->
      type p = None \/ (allOf p = None /\ oneOf p = None /\ anyOf p = None)).
Proof.
  destruct p as [r a o n t i e ps rq nl].
  unfold fixErrorsOnProperty; simpl.
  destruct a, o, n, t; simpl; split;
    try (intro H; try (exfalso; apply H; reflexivity); repeat split; reflexivity);
    split; intro H; try reflexivity; try discriminate H; auto;
    destruct H as [H|[H1 [H2 H3]]]; congruence.
Qed.

Section FurtherEngine.

Context {environment : Environment}.

(** ** Failures of [getType] *)



End FurtherEngine.

Section GeneratorIndependence.

Context {environment : Environment}.

Lemma getInvalidType_outcome o1 o2 q :
  exitOnInvalidType o1 = exitOnInvalidType o2 ->
  outcome (Some (getInvalidType o1 q)) = outcome (Some (getInvalidType o2 q)).
Proof.
  intro Hexit. unfold getInvalidType. rewrite Hexit.
  destruct (exitOnInvalidType o2); reflexivity.
Qed.

Lemma getType_outcome o1 o2 :
  exitOnInvalidType o1 = exitOnInvalidType o2 ->
  forall p, outcome (getType o1 p) = outcome (getType o2 p).
Proof.
  intros Hexit p. induction p as [p IH] using normalized_children_ind.
  rewrite !getType_dispatch. unfold wrapNullable. rewrite !outcome_map.
  unfold dispatch. set (q := fixErrorsOnProperty p) in *.
  destruct (classify q); simpl;
    unfold handleReference, handleAllOf, handleAnyOf, handleOneOf, handleArray,
      handleObject, handleEnum, handleNumber, handleString, handleBoolean,
      handleInteger; try reflexivity.
  - destruct (ref q); reflexivity.
  - destruct (allOf q) as [ms|] eqn:Hms; simpl; [|reflexivity].
    rewrite !outcome_map. apply traverseArray_outcome.
    intros m Hin. apply IH, (children_allOf _ _ _ Hms Hin).
  - destruct (anyOf q) as [ms|] eqn:Hms; simpl; [|reflexivity].
    rewrite !outcome_map. apply traverseArray_outcome.
    intros m Hin. apply IH, (children_anyOf _ _ _ Hms Hin).
  - destruct (oneOf q) as [ms|] eqn:Hms; simpl; [|reflexivity].
    rewrite !outcome_map. apply traverseArray_outcome.
    intros m Hin. apply IH, (children_oneOf _ _ _ Hms Hin).
  - destruct (items q) as [item|] eqn:Hitem; simpl; [|reflexivity].
    rewrite !outcome_map. apply IH, (children_items _ _ Hitem).
  - rewrite !outcome_map. apply traverseArray_outcome.
    intros [key c] Hin. unfold handleField. rewrite !outcome_map.
    apply IH, (children_entries _ _ _ Hin).
  - destruct (enum q); reflexivity.
  - apply getInvalidType_outcome. exact Hexit.
Qed.

Lemma baseDefinitionsToString_outcome o1 o2 schemas' :
  exitOnInvalidType o1 = exitOnInvalidType o2 ->
  outcome (baseDefinitionsToString o1 schemas')
  = outcome (baseDefinitionsToString o2 schemas').
Proof.
  intro Hexit. unfold baseDefinitionsToString, getTypesFromSchemas.
  rewrite !outcome_map. apply traverseArray_outcome.
  intros [key p] _. rewrite !outcome_map. apply getType_outcome. exact Hexit.
Qed.

Lemma definitionsToString_outcome options schemas' :
  outcome (definitionsToString options schemas')
  = outcome (baseDefinitionsToString options schemas').
Proof.
  pose proof (baseDefinitionsToString_outcome (asTypeScript options) options
                schemas' eq_refl) as Hsame.
  unfold definitionsToString.
  destruct (baseDefinitionsToString (asTypeScript options) schemas')
    as [[e|typeScript]|],
    (baseDefinitionsToString options schemas') as [[e'|base]|];
    simpl in *; try discriminate Hsame; try reflexivity;
    unfold doIf, constant; destruct (isCodecIoTs options); simpl;
    try reflexivity; try exact Hsame.
Qed.

(** Whether a translation returns, succeeds or fails, and with which
    error, depends on the property and on exitOnInvalidType only, never on
    the output type: for getType and for generate. *)
Theorem outcome_independent_of_output_type o1 o2 :
  exitOnInvalidType o1 = exitOnInvalidType o2 ->
  (forall p, outcome (getType o1 p) = outcome (getType o2 p))
  /\ (forall swagger, outcome (generate o1 swagger) = outcome (generate o2 swagger)).
Proof.
  intro Hexit. split; [apply getType_outcome; exact Hexit|].
  intro swagger. unfold generate. rewrite !outcome_map.
  destruct (E.chain getDefinitions (checkOpenApiVersion swagger)) as [e|schemas'];
    simpl; [reflexivity|].
  rewrite !definitionsToString_outcome.
  apply baseDefinitionsToString_outcome. exact Hexit.
Qed.

(** With the codec output type the two passes over the schemas agree: the
    run returns, succeeds or fails exactly as the TypeScript run on the
    same schemas does, with the same error. *)
Theorem codec_fails_as_typescript options schemas' :
  outcome (definitionsToString options schemas')
  = outcome (definitionsToString (asTypeScript options) schemas').
Proof.
  rewrite !definitionsToString_outcome.
  apply baseDefinitionsToString_outcome. reflexivity.
Qed.



(** On success getTypesFromSchemas gives one declaration per schema, in
    the order of the schemas, each built by getTypeDefinition from the
    schema's key and its translation. *)
Theorem declarations_in_order options schemas' declarations :
  getTypesFromSchemas options schemas' = Some (right declarations) ->
  Forall2
    (fun schema declaration =>
       exists t,
         getType options (snd schema) = Some (right t)
         /\ declaration
            = Generator.getTypeDefinition (getGenerator options) (fst schema) t)
    schemas' declarations.
Proof.
  unfold getTypesFromSchemas. intro H.
  apply traverseArray_inv_right in H.
  induction H as [|[key p] d ss ds Hd _ IH]; constructor; [|exact IH].
  unfold succeeds in Hd. simpl.
  destruct (getType options p) as [[e|t]|]; simpl in Hd; try discriminate Hd.
  inversion Hd. exists t. split; reflexivity.
Qed.

End GeneratorIndependence.

Section Shapes.

Context {environment : Environment}.

Lemma Forall2_succeeds_map {Err A T C} (f : A -> option (Either Err C))
    (h : A -> T -> C) l ts :
  Forall2 (fun a t => f a = Some (right (h a t))) l ts ->
  Forall2 (succeeds f) l
    (List.map (fun at' => h (fst at') (snd at')) (combine l ts)).
Proof.
  induction 1 as [|a t l ts Ha _ IH]; simpl; constructor; assumption.
Qed.

Lemma classify_plain p :
  ref p = None -> allOf p = None -> anyOf p = None -> oneOf p = None ->
  fixErrorsOnProperty p = p
  /\ classify p
     = if isArray p then VArray
       else if isObject p then VObject
       else if isEnum p then VEnum
       else if isNumber p then VNumber
       else if isString p then VString
       else if isBoolean p then VBoolean
       else if isInteger p then VInteger
       else VInvalid.
Proof.
  intros Hr Ha Hn Ho. split.
  - apply fixErrorsOnProperty_plain; assumption.
  - unfold classify, isReference, isValidAllOf, isAllOf, isAnyOf, isOneOf.
    rewrite Hr, Ha, Hn, Ho. reflexivity.
Qed.

(** A property with a $ref key that normalization leaves alone is
    translated to the name of the reference, whatever its other keys: the
    name is what is left of the path once its first
    #/components/schemas/ is removed, no schema is looked up, and the
    translation cannot fail. *)
Theorem reference_translation options p reference :
  ref p = Some reference ->
  fixErrorsOnProperty p = p ->
  getType options p
  = Some (right
      (doIf (isNullable p) (Generator.makeTypeNullable (getGenerator options))
         (Generator.getTypeReference (getGenerator options)
            (replace "#/components/schemas/" "" reference))))
  /\ forall name,
       reference = "#/components/schemas/" ++ name ->
       replace "#/components/schemas/" "" reference = name.
Proof.
  intros Hr Hfix. split.
  - rewrite getType_dispatch, Hfix. unfold dispatch, classify, isReference.
    rewrite Hr. simpl. unfold handleReference. rewrite Hr. reflexivity.
  - intros name ->. apply (replace_leading "#/components/schemas/" "" name).
Qed.

(** A plain property of type array is translated to the array of the
    translation of its items, and a failure of the items is its failure;
    without the items key the call does not return, whatever
    exitOnInvalidType. *)
Theorem array_translation options p :
  ref p = None -> allOf p = None -> anyOf p = None -> oneOf p = None ->
  type p = Some "array" ->
  (forall item,
      items p = Some item ->
      getType options p
      = wrapNullable options p
          (option_map (E.map (Generator.getTypeArray (getGenerator options)))
             (getType options item)))
  /\ (items p = None -> getType options p = None).
Proof.
  intros Hr Ha Hn Ho Ht.
  destruct (classify_plain p Hr Ha Hn Ho) as [Hfix Hc].
  assert (Harray : classify p = VArray).
  { rewrite Hc. unfold isArray, typeIs. rewrite Ht. reflexivity. }
  rewrite getType_dispatch, Hfix. unfold dispatch. rewrite Harray. simpl.
  unfold handleArray. split.
  - intros item ->. reflexivity.
  - intros ->. reflexivity.
Qed.

Lemma typeScript_getProperty key isRequired' type' :
  Generator.getProperty typeScriptGenerator key isRequired' type'
  = typeScriptField key isRequired' type'.
Proof.
  unfold typeScriptField. simpl.
  unfold prefix, suffix, doIf, not_, constant, surround.
  destruct isRequired'; simpl; rewrite !append_assoc; reflexivity.
Qed.

Lemma typeScript_makeTypeNullable type' :
  Generator.makeTypeNullable typeScriptGenerator type' = "(" ++ type' ++ "|null)".
Proof.
  simpl. unfold surround, suffix. rewrite append_assoc. reflexivity.
Qed.

Lemma isRequired_In key requiredFields :
  isRequired key requiredFields = true
  <-> exists fields, requiredFields = Some fields /\ In key fields.
Proof.
  unfold isRequired. destruct requiredFields as [fields|].
  - rewrite existsb_exists. split.
    + intros [x [Hin Heq]]. apply String.eqb_eq in Heq. subst x.
      exists fields. split; [reflexivity|exact Hin].
    + intros [fields' [Heq Hin]]. inversion Heq; subst fields'.
      exists key. split; [exact Hin|apply String.eqb_refl].
  - split; [discriminate|]. intros [fields [Heq _]]. discriminate Heq.
Qed.

(** With the TypeScript output type, a plain property of type object whose
    fields all translate becomes the fields in declared order between
    braces, separated by commas, each with its key in double quotes and a
    question mark exactly when the key is not listed in required; an
    object without properties becomes the empty braces. *)
Theorem typeScript_object options p types :
  outputType options = TypeScript ->
  ref p = None -> allOf p = None -> anyOf p = None -> oneOf p = None ->
  type p = Some "object" ->
  Forall2 (fun field t => getType options (snd field) = Some (right t))
    (entries p) types ->
  getType options p
  = Some (right
      (doIf (isNullable p) (fun t => "(" ++ t ++ "|null)")
         ("{"
          ++ join ","
               (List.map
                  (fun ft =>
                     typeScriptField (fst (fst ft))
                       (isRequired (fst (fst ft)) (required p)) (snd ft))
                  (combine (entries p) types))
          ++ "}")))
  /\ (forall key,
        isRequired key (required p) = true
        <-> exists fields, required p = Some fields /\ In key fields)
  /\ (properties p = None -> entries p = []).
Proof.
  intros Hts Hr Ha Hn Ho Ht Hall.
  split; [|split; [intro key; apply isRequired_In|]].
  2: { intro Hp. unfold entries. rewrite Hp. reflexivity. }
  destruct (classify_plain p Hr Ha Hn Ho) as [Hfix Hc].
  assert (Hobject : classify p = VObject).
  { rewrite Hc. unfold isArray, isObject, typeIs. rewrite Ht. reflexivity. }
  rewrite getType_dispatch, Hfix. unfold dispatch. rewrite Hobject. simpl.
  unfold handleObject.
  assert (Hg : getGenerator options = typeScriptGenerator).
  { unfold getGenerator. rewrite Hts. reflexivity. }
  rewrite (traverseArray_right _ _
             (List.map
                (fun ft =>
                   typeScriptField (fst (fst ft))
                     (isRequired (fst (fst ft)) (required p)) (snd ft))
                (combine (entries p) types))).
  - unfold wrapNullable. rewrite Hg. simpl option_map. unfold E.map.
    f_equal. f_equal. unfold doIf.
    destruct (isNullable p _); [|reflexivity].
    apply typeScript_makeTypeNullable.
  - apply (Forall2_succeeds_map (handleField getType options p)
             (fun field t =>
                typeScriptField (fst field)
                  (isRequired (fst field) (required p)) t)).
    eapply Forall2_impl; [|exact Hall].
    intros [key c] t Hct. simpl in *. unfold handleField. rewrite Hct, Hg.
    unfold option_map, E.map.
    rewrite <- (typeScript_getProperty key (isRequired key (required p)) t).
    reflexivity.
Qed.

(** With the TypeScript output type, a document of a supported version
    whose schemas all translate gives the header line, then one
    declaration export type Name=type per schema, in the order of the
    schemas, separated by semicolons with none at the end; with no schema
    the output is the header alone. *)
Theorem typeScript_output options swagger section types :
  outputType options = TypeScript ->
  versionMatch (openapi swagger) = true ->
  components swagger = Some section ->
  Forall2 (fun schema t => getType options (snd schema) = Some (right t))
    (schemas section) types ->
  generate options swagger
  = Some (right
      (useStrictHeader
       ++ join ";"
            (List.map
               (fun st =>
                  ("export type " ++ toPascalCase (fst (fst st)) ++ "=")
                  ++ snd st)
               (combine (schemas section) types)))).
Proof.
  intros Hts Hv Hc Hall.
  rewrite (generate_supported _ _ Hv). unfold getDefinitions. rewrite Hc. simpl.
  assert (Hsame : asTypeScript options = options).
  { destruct options as [output exit]. simpl in Hts. subst output. reflexivity. }
  assert (Hg : getGenerator options = typeScriptGenerator).
  { unfold getGenerator. rewrite Hts. reflexivity. }
  unfold definitionsToString. rewrite Hsame.
  unfold baseDefinitionsToString, getTypesFromSchemas.
  rewrite (traverseArray_right _ _
             (List.map
                (fun st =>
                   ("export type " ++ toPascalCase (fst (fst st)) ++ "=")
                   ++ snd st)
                (combine (schemas section) types))).
  - unfold isCodecIoTs. rewrite Hts, Hg. reflexivity.
  - apply (Forall2_succeeds_map _
             (fun schema t =>
                ("export type " ++ toPascalCase (fst schema) ++ "=") ++ t)).
    eapply Forall2_impl; [|exact Hall].
    intros [key p] t Hpt. simpl in *. rewrite Hpt, Hg. reflexivity.
Qed.

End Shapes.

(** * Properties of the older build *)

Section LegacyFacts.

Variable toUpperCase : string -> string.

Lemma legacy_getTypeStep_ext g1 g2 options p :
  (forall o c, weight c < weight p -> g1 o c = g2 o c) ->
  Legacy.getTypeStep toUpperCase g1 options p
  = Legacy.getTypeStep toUpperCase g2 options p.
Proof.
  intro Hg.
  assert (Hc : forall c, In c (children (fixErrorsOnProperty p)) ->
                         g1 options c = g2 options c).
  { intros c Hin. apply Hg, fixErrorsOnProperty_children, Hin. }
  clear Hg. unfold Legacy.getTypeStep.
  set (q := fixErrorsOnProperty p) in *.
  destruct (ref q); [reflexivity|].
  destruct (allOf q) as [ms|] eqn:Ha.
  { unfold Legacy.composite. rewrite (traverseArray_ext (g1 options) (g2 options));
      [reflexivity|]. intros c Hin. apply Hc, (children_allOf _ _ _ Ha Hin). }
  destruct (anyOf q) as [ms|] eqn:Hn.
  { unfold Legacy.composite. rewrite (traverseArray_ext (g1 options) (g2 options));
      [reflexivity|]. intros c Hin. apply Hc, (children_anyOf _ _ _ Hn Hin). }
  destruct (oneOf q) as [ms|] eqn:Ho.
  { unfold Legacy.composite. rewrite (traverseArray_ext (g1 options) (g2 options));
      [reflexivity|]. intros c Hin. apply Hc, (children_oneOf _ _ _ Ho Hin). }
  destruct (type q) as [t|]; [|reflexivity].
  unfold Legacy.getTypeByType.
  destruct (String.eqb t "array").
  { destruct (items q) as [item|] eqn:Hi; simpl; [|reflexivity].
    rewrite (Hc item (children_items _ _ Hi)). reflexivity. }
  destruct (String.eqb t "string" && has (enum q)); [reflexivity|].
  destruct (existsb (String.eqb t) ["boolean"; "number"; "null"; "string"]);
    [reflexivity|].
  destruct (String.eqb t "integer"); [reflexivity|].
  destruct (String.eqb t "object"); [|reflexivity].
  unfold Legacy.getTypeObject. do 2 f_equal. apply traverseArray_ext.
  intros [key c] Hin. rewrite (Hc c); [reflexivity|].
  apply (children_entries q key c). exact Hin.
Qed.

Lemma legacy_getTypeFuel_stable n : forall m options p,
  weight p <= n -> n <= m ->
  Legacy.getTypeFuel toUpperCase m options p
  = Legacy.getTypeFuel toUpperCase n options p.
Proof.
  induction n as [|n IH]; intros m options p Hw Hm.
  - pose proof (weight_positive p). lia.
  - destruct m as [|m]; [lia|]. simpl. apply legacy_getTypeStep_ext.
    intros o c Hc. apply IH; lia.
Qed.

(** The older [getType] satisfies the recursive equation of its source. *)
Lemma legacy_getType_unfold options p :
  Legacy.getType toUpperCase options p
  = Legacy.getTypeStep toUpperCase (Legacy.getType toUpperCase) options p.
Proof.
  unfold Legacy.getType at 1. pose proof (weight_positive p) as Hp.
  destruct (weight p) as [|n] eqn:Hw; [lia|]. simpl.
  apply legacy_getTypeStep_ext. intros o c Hc.
  unfold Legacy.getType. apply legacy_getTypeFuel_stable; lia.
Qed.

(** ** Names *)

Lemma split_nonempty key : Legacy.split key <> [].
Proof.
  destruct key as [|c rest]; simpl; [discriminate|].
  destruct (Ascii.eqb c "-"); [discriminate|].
  destruct (Legacy.split rest); discriminate.
Qed.

Lemma concat_split key : String.concat "-" (Legacy.split key) = key.
Proof.
  induction key as [|c rest IH]; [reflexivity|].
  simpl Legacy.split. pose proof (split_nonempty rest) as Hne.
  destruct (Legacy.split rest) as [|token tokens] eqn:Hs; [congruence|].
  destruct (Ascii.eqb c "-") eqn:Hc.
  - apply Ascii.eqb_eq in Hc. subst c.
    exact (f_equal (String "-"%char) IH).
  - destruct tokens as [|token' tokens]; exact (f_equal (String c) IH).
Qed.

Lemma mapReturned_capitalize tokens :
  (In EmptyString tokens ->
   Legacy.mapReturned (Legacy.capitalize toUpperCase) tokens = None)
  /\ (~ In EmptyString tokens ->
      Legacy.mapReturned (Legacy.capitalize toUpperCase) tokens
      = Some (List.map (capitalized toUpperCase) tokens)).
Proof.
  induction tokens as [|token tokens [IHnone IHsome]]; simpl.
  - split; [contradiction|reflexivity].
  - split.
    + intros [Heq|Hin]; [subst token; reflexivity|].
      destruct (Legacy.capitalize toUpperCase token); [|reflexivity]. simpl.
      rewrite (IHnone Hin). reflexivity.
    + intro Hno. destruct token as [|c rest]; [exfalso; apply Hno; left; reflexivity|].
      simpl. rewrite IHsome; [reflexivity|].
      intro Hin. apply Hno. right. exact Hin.
Qed.

(** toCamelCase returns exactly on the keys without an empty piece between
    hyphens (the empty key, a leading or trailing hyphen and a doubled
    hyphen make it throw); it then returns the pieces, each with its first
    character in upper case, glued together.  The pieces are those of the
    key: joined by hyphens they give it back. *)
Theorem legacy_toCamelCase key :
  (Legacy.toCamelCase toUpperCase key = None
   <-> In EmptyString (Legacy.split key))
  /\ (~ In EmptyString (Legacy.split key) ->
      Legacy.toCamelCase toUpperCase key
      = Some (String.concat ""
                (List.map (capitalized toUpperCase) (Legacy.split key))))
  /\ String.concat "-" (Legacy.split key) = key.
Proof.
  destruct (mapReturned_capitalize (Legacy.split key)) as [Hnone Hsome].
  unfold Legacy.toCamelCase. split; [|split].
  - split.
    + intro H. destruct (in_dec string_dec EmptyString (Legacy.split key))
        as [Hin|Hno]; [exact Hin|].
      rewrite (Hsome Hno) in H. discriminate H.
    + intro Hin. rewrite (Hnone Hin). reflexivity.
  - intro Hno. rewrite (Hsome Hno). reflexivity.
  - apply concat_split.
Qed.

End LegacyFacts.

Lemma traverseFrom_none {Err A B} (f : A -> option (Either Err B)) ta a :
  In a ta -> f a = None -> forall fbs, traverseFrom f fbs ta = None.
Proof.
  induction ta as [|x ta IH]; intros Hin Ha fbs; [contradiction|].
  simpl. destruct Hin as [->|Hin].
  - rewrite Ha. reflexivity.
  - destruct (f x); simpl; [|reflexivity]. apply IH; assumption.
Qed.

Section LegacyTranslation.

Variable toUpperCase : string -> string.


(** Every failure of the older getType is the invalid-type error of a
    normalized property without $ref and without composite keyword, and
    there is none unless exitOnInvalidType is set. *)
Theorem legacy_getType_failure options p e :
  Legacy.getType toUpperCase options p = Some (left e) ->
  exitOnInvalidType options = true
  /\ exists q,
       e = InvalidType q
       /\ fixErrorsOnProperty q = q
       /\ ref q = None /\ allOf q = None /\ anyOf q = None /\ oneOf q = None.
Proof.
  revert e. induction p as [p IH] using normalized_children_ind. intros e H.
  rewrite legacy_getType_unfold in H. unfold Legacy.getTypeStep in H.
  set (q := fixErrorsOnProperty p) in *.
  assert (Hcomposite : forall separator ms,
            incl ms (children q) ->
            Legacy.composite (Legacy.getType toUpperCase) options q separator ms
            = Some (left e) ->
            exitOnInvalidType options = true
            /\ exists q',
                 e = InvalidType q' /\ fixErrorsOnProperty q' = q'
                 /\ ref q' = None /\ allOf q' = None /\ anyOf q' = None
                 /\ oneOf q' = None).
  { intros separator ms Hincl Hc. unfold Legacy.composite in Hc.
    destruct (traverseArray (Legacy.getType toUpperCase options) ms)
      as [[e'|ts]|] eqn:Htr; simpl in Hc; try discriminate Hc.
    inversion Hc; subst e'.
    destruct (traverseArray_inv_left _ _ _ Htr) as [m [Hin Hm]].
    apply (IH m (Hincl m Hin) _ Hm). }
  destruct (ref q) as [reference|] eqn:Hr.
  { destruct (Legacy.getReferenceName toUpperCase reference); simpl in H;
      discriminate H. }
  destruct (allOf q) as [ms|] eqn:Ha.
  { apply (Hcomposite "&" ms); [|exact H].
    intros c Hin. apply (children_allOf _ _ _ Ha Hin). }
  destruct (anyOf q) as [ms|] eqn:Hn.
  { apply (Hcomposite "|" ms); [|exact H].
    intros c Hin. apply (children_anyOf _ _ _ Hn Hin). }
  destruct (oneOf q) as [ms|] eqn:Ho.
  { apply (Hcomposite "|" ms); [|exact H].
    intros c Hin. apply (children_oneOf _ _ _ Ho Hin). }
  assert (Hinvalid : Some (Legacy.getInvalidType options q) = Some (left e) ->
            exitOnInvalidType options = true
            /\ exists q',
                 e = InvalidType q' /\ fixErrorsOnProperty q' = q'
                 /\ ref q' = None /\ allOf q' = None /\ anyOf q' = None
                 /\ oneOf q' = None).
  { unfold Legacy.getInvalidType. destruct (exitOnInvalidType options);
      [|discriminate].
    intro Hi. inversion Hi. split; [reflexivity|]. exists q.
    repeat split; try assumption. apply fixErrorsOnProperty_settled. }
  destruct (type q) as [t|]; [|exact (Hinvalid H)].
  unfold Legacy.getTypeByType in H.
  destruct (String.eqb t "array").
  { destruct (items q) as [item|] eqn:Hi; simpl in H; [|discriminate H].
    destruct (Legacy.getType toUpperCase options item) as [[e'|t']|] eqn:Hitem;
      simpl in H; try discriminate H.
    inversion H; subst e'. apply (IH item (children_items _ _ Hi) _ Hitem). }
  destruct (String.eqb t "string" && has (enum q)).
  { destruct (enum q); simpl in H; discriminate H. }
  destruct (existsb (String.eqb t) ["boolean"; "number"; "null"; "string"]);
    [discriminate H|].
  destruct (String.eqb t "integer"); [discriminate H|].
  destruct (String.eqb t "object"); [|exact (Hinvalid H)].
  unfold Legacy.getTypeObject in H.
  match type of H with
  | option_map _ (option_map _ ?tr) = _ => destruct tr as [[e'|ts]|] eqn:Htr
  end; simpl in H; try discriminate H.
  inversion H; subst e'.
  destruct (traverseArray_inv_left _ _ _ Htr) as [[key c] [Hin Hf]].
  destruct (Legacy.getType toUpperCase options c) as [[e'|t']|] eqn:Hc;
    simpl in Hf; try discriminate Hf.
  inversion Hf; subst e'.
  apply (IH c (children_entries q key c Hin) _ Hc).
Qed.

(** The older generate, on a document of a supported version with a
    schema section: when every schema translates and every key converts,
    the output is one declaration export type Name=type per schema, in the
    order of the schemas, joined by semicolons, without header (empty for
    no schema); a schema that translates but whose key has an empty piece
    between hyphens makes the call throw. *)
Theorem legacy_output options swagger section :
  versionMatch (openapi swagger) = true ->
  components swagger = Some section ->
  (forall rendered,
      Forall2
        (fun schema nt =>
           Legacy.toCamelCase toUpperCase (fst schema) = Some (fst nt)
           /\ Legacy.getType toUpperCase options (snd schema)
              = Some (right (snd nt)))
        (schemas section) rendered ->
      Legacy.generate toUpperCase options swagger
      = Some (right
          (String.concat ";"
             (List.map (fun nt => "export type " ++ fst nt ++ "=" ++ snd nt)
                rendered))))
  /\ (forall key p t,
        In (key, p) (schemas section) ->
        Legacy.getType toUpperCase options p = Some (right t) ->
        In EmptyString (Legacy.split key) ->
        Legacy.generate toUpperCase options swagger = None).
Proof.
  intros Hv Hc. unfold Legacy.generate, checkOpenApiVersion, getDefinitions.
  rewrite Hv. simpl. rewrite Hc. simpl.
  unfold Legacy.getTypesFromSchemas. split.
  - intros rendered Hall.
    rewrite (traverseArray_right _ _
               (List.map (fun nt => fst nt ++ "=" ++ snd nt) rendered)).
    + simpl. rewrite List.map_map. reflexivity.
    + clear -Hall. induction Hall as [|[key p] [name t] ss rs [Hk Hp] _ IH];
        simpl; constructor; [|exact IH].
      unfold succeeds. simpl in *. rewrite Hp. simpl. rewrite Hk. reflexivity.
  - intros key p t Hin Hp Hempty.
    unfold traverseArray. erewrite traverseFrom_none; [reflexivity|exact Hin|].
    simpl. rewrite Hp. simpl.
    unfold Legacy.toCamelCase.
    rewrite (proj1 (mapReturned_capitalize toUpperCase (Legacy.split key))
               Hempty).
    reflexivity.
Qed.

End LegacyTranslation.

Section Plain.

Context {environment : Environment}.

(** The output of generate for TypeScript and Flow: on a document of a
    supported version with a schema section it is the generator's header
    put on the combined declarations of getTypesFromSchemas, and nothing
    else; the TypeScript pass that definitionsToString always runs first
    changes neither the result nor whether the call returns. *)
Theorem non_codec_output options swagger section :
  outputType options <> CodecIoTs ->
  versionMatch (openapi swagger) = true ->
  components swagger = Some section ->
  generate options swagger
  = option_map
      (E.map
         (fun declarations =>
            Generator.addHeader (getGenerator options)
              (Generator.combineTypes (getGenerator options) declarations)))
      (getTypesFromSchemas options (schemas section)).
Proof.
  intros Hcodec Hv Hc.
  rewrite (generate_supported _ _ Hv). unfold getDefinitions. rewrite Hc. simpl.
  pose proof (baseDefinitionsToString_outcome (asTypeScript options) options
                (schemas section) eq_refl) as Hsame.
  unfold definitionsToString.
  assert (Hno : isCodecIoTs options = false).
  { unfold isCodecIoTs. destruct (outputType options); congruence. }
  rewrite Hno. unfold doIf, constant.
  unfold baseDefinitionsToString in *.
  destruct (getTypesFromSchemas (asTypeScript options) (schemas section))
    as [[e|typeScript]|],
    (getTypesFromSchemas options (schemas section)) as [[e'|declarations]|];
    simpl in *; try discriminate Hsame; reflexivity.
Qed.

(** The plain properties that are neither arrays nor objects: a string
    with an enum key is the enum of its values and the enum key of any
    other type is ignored; string, number, boolean and integer are the
    generator's primitives; every other type name, null included, goes to
    the invalid-type branch. *)
Theorem primitive_types options p t :
  ref p = None -> allOf p = None -> anyOf p = None -> oneOf p = None ->
  type p = Some t ->
  let rendered := fun text =>
    Some (right
            (doIf (isNullable p)
               (Generator.makeTypeNullable (getGenerator options)) text)) in
  (t = "string" ->
   forall values, enum p = Some values ->
   getType options p
   = rendered (Generator.getTypeEnum (getGenerator options) values))
  /\ (t = "string" -> enum p = None ->
      getType options p
      = rendered (Generator.getTypeString (getGenerator options) tt))
  /\ (t = "number" ->
      getType options p
      = rendered (Generator.getTypeNumber (getGenerator options) tt))
  /\ (t = "boolean" ->
      getType options p
      = rendered (Generator.getTypeBoolean (getGenerator options) tt))
  /\ (t = "integer" ->
      getType options p
      = rendered (Generator.getTypeInteger (getGenerator options) tt))
  /\ (~ In t ["array"; "object"; "string"; "number"; "boolean"; "integer"] ->
      getType options p
      = wrapNullable options p (Some (getInvalidType options p))).
Proof.
  intros Hr Ha Hn Ho Ht rendered. subst rendered.
  destruct (classify_plain p Hr Ha Hn Ho) as [Hfix Hc].
  rewrite getType_dispatch, Hfix. unfold dispatch. rewrite Hc.
  unfold isArray, isObject, isEnum, isNumber, isString, isBoolean, isInteger,
    typeIs. rewrite Ht.
  repeat split.
  - intros -> values Hv. rewrite Hv. simpl. unfold handleEnum. rewrite Hv.
    reflexivity.
  - intros -> Hv. rewrite Hv. reflexivity.
  - intros ->. reflexivity.
  - intros ->. reflexivity.
  - intros ->. reflexivity.
  - intro Hnot.
    assert (Hneq : forall name,
              In name ["array"; "object"; "string"; "number"; "boolean"; "integer"] ->
              String.eqb t name = false).
    { intros name Hin. apply String.eqb_neq. intros ->. apply Hnot, Hin. }
    rewrite !Hneq by (simpl; auto 10). reflexivity.
Qed.

End Plain.

Section LegacyPlain.

Variable toUpperCase : string -> string.

(** The plain properties of the older build that are neither arrays nor
    objects: a string with an enum key is the list of its quoted values;
    boolean, number, null and string are rendered by their own name and
    integer as number, wrapped when the property is nullable; any other
    type name, or no type, gives the invalid-type error with
    exitOnInvalidType and the unknown type otherwise, which is not wrapped
    even when the property is nullable. *)
Theorem legacy_primitive_types options p :
  ref p = None -> allOf p = None -> anyOf p = None -> oneOf p = None ->
  (forall values,
      type p = Some "string" -> enum p = Some values ->
      Legacy.getType toUpperCase options p
      = Some (right
          (Legacy.getTypeNullable p
             (String.concat "|"
                (List.map (fun enumValue => "'" ++ enumValue ++ "'") values)))))
  /\ (forall t,
        type p = Some t ->
        In t ["boolean"; "number"; "null"; "string"] ->
        (t = "string" -> enum p = None) ->
        Legacy.getType toUpperCase options p
        = Some (right (Legacy.getTypeNullable p t)))
  /\ (type p = Some "integer" ->
      Legacy.getType toUpperCase options p
      = Some (right (Legacy.getTypeNullable p "number")))
  /\ ((forall t,
         type p = Some t ->
         ~ In t ["array"; "object"; "boolean"; "number"; "null"; "string";
                 "integer"]) ->
      Legacy.getType toUpperCase options p
      = Some (if exitOnInvalidType options
              then left (InvalidType p)
              else right (if Legacy.isTypeScript options
                          then "unknown" else "mixed"))).
Proof.
  intros Hr Ha Hn Ho.
  rewrite legacy_getType_unfold. unfold Legacy.getTypeStep.
  rewrite (fixErrorsOnProperty_plain p Ha Ho Hn), Hr, Ha, Hn, Ho.
  unfold Legacy.getTypeByType. repeat split.
  - intros values Ht Hv. rewrite Ht, Hv. reflexivity.
  - intros t Ht Hin Henum. rewrite Ht.
    destruct Hin as [<-|[<-|[<-|[<-|[]]]]]; simpl; try reflexivity.
    rewrite (Henum eq_refl). reflexivity.
  - intros Ht. rewrite Ht. reflexivity.
  - intro Hnot. destruct (type p) as [t|]; [|reflexivity].
    specialize (Hnot t eq_refl).
    assert (Hneq : forall name,
              In name ["array"; "object"; "boolean"; "number"; "null"; "string";
                       "integer"] ->
              String.eqb t name = false).
    { intros name Hin. apply String.eqb_neq. intros ->. apply Hnot, Hin. }
    simpl existsb. rewrite !Hneq by (simpl; auto 10). reflexivity.
Qed.

End LegacyPlain.

(** ** Closed instances *)



Lemma composite_translation_witness :
  classify (fixErrorsOnProperty stringOrInteger) = variantOf AnyOf
  /\ membersOf AnyOf (fixErrorsOnProperty stringOrInteger)
     = Some [stringProperty; integerProperty]
  /\ @getType sampleEnvironment (typeScriptOptions true) stringOrInteger
     = Some (right "string|number").
Proof.
  split; [reflexivity|]. split; [reflexivity|].
  apply (proj1 (proj1 (@composite_translation sampleEnvironment
                         (typeScriptOptions true) stringOrInteger)
                  AnyOf [stringProperty; integerProperty] eq_refl eq_refl)
           ["string"; "number"]).
  repeat constructor.
Defined.

(** C3, as stated, fails on an allOf with a member that is neither a
    reference nor an object: the member translates, and the property goes
    to the invalid-type branch all the same. *)
Lemma composite_translation_counterexample :
  @getType sampleEnvironment (typeScriptOptions true) stringProperty
  = Some (right "string")
  /\ @getType sampleEnvironment (typeScriptOptions true) allOfString
     = Some (left (InvalidType allOfString))
  /\ @getType sampleEnvironment (typeScriptOptions false) allOfString
     = Some (right "unknown")
  /\ @getType sampleEnvironment (typeScriptOptions true) allOfString
     <> Some (right (Generator.getTypeAllOf (@typeScriptGenerator sampleEnvironment)
                       ["string"])).
Proof.
  repeat split; try (vm_compute; reflexivity).
  intro H. vm_compute in H. discriminate H.
Qed.


Lemma pet_end_to_end_witness :
  versionMatch "3.0.0" = true
  /\ @generate sampleEnvironment (typeScriptOptions true) (petDocument "3.0.0")
     = Some (right (useStrictHeader ++ petDeclaration)).
Proof.
  split; [reflexivity|].
  apply (@pet_end_to_end sampleEnvironment "3.0.0" true); reflexivity.
Defined.

(** C5, as stated, fails: the output starts with the header line, not
    with the declaration. *)
Lemma pet_end_to_end_counterexample :
  @generate sampleEnvironment (typeScriptOptions true) (petDocument "3.0.0")
  <> Some (right petDeclaration).
Proof. intro H. vm_compute in H. discriminate H. Qed.





Lemma allOf_shadows_unions_witness :
  @getType sampleEnvironment (typeScriptOptions true) allOfWithOneOf
  = @wrapNullable sampleEnvironment (typeScriptOptions true) allOfWithOneOf
      (option_map
         (E.map
            (Generator.getTypeAllOf
               (@getGenerator sampleEnvironment (typeScriptOptions true))))
         (traverseArray (@getType sampleEnvironment (typeScriptOptions true))
            [referenceTo "B"]))
  /\ @getType sampleEnvironment (typeScriptOptions true) allOfWithOneOf
     = Some (right "B").
Proof.
  split; [|reflexivity].
  assert (Hunion : oneOf allOfWithOneOf <> None \/ anyOf allOfWithOneOf <> None)
    by (left; discriminate).
  pose proof (@allOf_shadows_unions sampleEnvironment (typeScriptOptions true)
                allOfWithOneOf [referenceTo "B"] eq_refl eq_refl eq_refl Hunion)
    as Hclaim.
  specialize (Hclaim eq_refl). exact (proj1 Hclaim).
Defined.

(** C10, as stated, fails on a property that also has a $ref key: the
    reference handler comes first, and neither the allOf nor the oneOf is
    translated. *)
Lemma allOf_shadows_unions_counterexample :
  type referenceWithComposites = None
  /\ isValidAllOf referenceWithComposites = true
  /\ @getType sampleEnvironment (typeScriptOptions true) referenceWithComposites
     = Some (right "A")
  /\ @getType sampleEnvironment (typeScriptOptions true) referenceWithComposites
     <> Some (right (Generator.getTypeAllOf (@typeScriptGenerator sampleEnvironment)
                       ["B"])).
Proof.
  repeat split; try reflexivity.
  intro H. vm_compute in H. discriminate H.
Qed.

Lemma getType_returns_witness :
  arraysHaveItems petProperty = true
  /\ exists result,
       @getType sampleEnvironment (typeScriptOptions true) petProperty = Some result.
Proof.
  split; [reflexivity|].
  apply (@getType_returns sampleEnvironment). reflexivity.
Defined.

Lemma owner_end_to_end_witness :
  @generate sampleEnvironment (typeScriptOptions false) (document "3.0.1" ownerSchemas)
  = Some (right (useStrictHeader ++ "export type Owner=Array<Pet>")).
Proof. apply (@owner_end_to_end sampleEnvironment "3.0.1" false); reflexivity. Defined.

Lemma status_end_to_end_witness :
  @generate sampleEnvironment (typeScriptOptions false) (document "3.0.1" statusSchemas)
  = Some (right (useStrictHeader ++ "export type Status='open'|'closed'")).
Proof. apply (@status_end_to_end sampleEnvironment "3.0.1" false); reflexivity. Defined.

Lemma unknown_fallback_witness :
  classify (fixErrorsOnProperty fooProperty) = VInvalid
  /\ @getType sampleEnvironment (typeScriptOptions false) fooProperty
     = Some (right "unknown").
Proof.
  split; [reflexivity|].
  apply (@unknown_fallback sampleEnvironment (typeScriptOptions false) fooProperty);
    reflexivity.
Defined.

Lemma version_test_unanchored_witness :
  @checkOpenApiVersion (mkSwagger "13.0.1-beta" None)
  = right (mkSwagger "13.0.1-beta" None)
  /\ @generate sampleEnvironment (typeScriptOptions true) (mkSwagger "13.0.1-beta" None)
     = Some (left NoDefinition).
Proof.
  destruct (@version_test_unanchored sampleEnvironment (typeScriptOptions true)
              "1" "-beta" "1"%char eq_refl (mkSwagger "13.0.1-beta" None) eq_refl)
    as [Hcheck Hgenerate].
  split; [exact Hcheck|]. rewrite Hgenerate. reflexivity.
Defined.


Lemma outcome_independent_of_output_type_witness :
  outcome (@getType sampleEnvironment (mkOptions Flow true) validThenInvalid)
  = outcome (@getType sampleEnvironment (mkOptions TypeScript true) validThenInvalid).
Proof.
  apply (proj1 (@outcome_independent_of_output_type sampleEnvironment
                  (mkOptions Flow true) (mkOptions TypeScript true) eq_refl)).
Defined.


Lemma declarations_in_order_witness :
  Forall2
    (fun schema declaration =>
       exists t,
         @getType sampleEnvironment (typeScriptOptions true) (snd schema)
         = Some (right t)
         /\ declaration
            = Generator.getTypeDefinition
                (@getGenerator sampleEnvironment (typeScriptOptions true))
                (fst schema) t)
    petSchemas ["export type " ++ petDeclarationBody].
Proof.
  apply (@declarations_in_order sampleEnvironment (typeScriptOptions true)
           petSchemas ["export type " ++ petDeclarationBody]).
  reflexivity.
Defined.

Lemma reference_translation_witness :
  @getType sampleEnvironment (typeScriptOptions true) referenceWithComposites
  = Some (right
      (doIf (isNullable referenceWithComposites)
         (Generator.makeTypeNullable
            (@getGenerator sampleEnvironment (typeScriptOptions true)))
         (Generator.getTypeReference
            (@getGenerator sampleEnvironment (typeScriptOptions true))
            (replace "#/components/schemas/" "" "#/components/schemas/A")))).
Proof.
  exact (proj1 (@reference_translation sampleEnvironment (typeScriptOptions true)
                  referenceWithComposites "#/components/schemas/A"
                  eq_refl eq_refl)).
Defined.

Lemma array_translation_witness :
  @getType sampleEnvironment (typeScriptOptions true) arrayWithoutItems = None
  /\ @getType sampleEnvironment (typeScriptOptions false) arrayWithoutItems = None.
Proof.
  split.
  - apply (proj2 (@array_translation sampleEnvironment (typeScriptOptions true)
                    arrayWithoutItems eq_refl eq_refl eq_refl eq_refl eq_refl)).
    reflexivity.
  - apply (proj2 (@array_translation sampleEnvironment (typeScriptOptions false)
                    arrayWithoutItems eq_refl eq_refl eq_refl eq_refl eq_refl)).
    reflexivity.
Defined.

Lemma typeScript_object_witness :
  @getType sampleEnvironment (typeScriptOptions true) petProperty
  = Some (right
      ("{" ++ dquote ++ "name" ++ dquote ++ ":string,"
       ++ dquote ++ "age" ++ dquote ++ "?:(number|null)}")).
Proof.
  pose proof (@typeScript_object sampleEnvironment (typeScriptOptions true)
                petProperty ["string"; "(number|null)"]
                eq_refl eq_refl eq_refl eq_refl eq_refl eq_refl) as Hclaim.
  assert (Hfields :
    Forall2
      (fun field t =>
         @getType sampleEnvironment (typeScriptOptions true) (snd field)
         = Some (right t))
      (entries petProperty) ["string"; "(number|null)"]).
  { repeat constructor. }
  exact (proj1 (Hclaim Hfields)).
Defined.

Lemma typeScript_output_witness :
  @generate sampleEnvironment (typeScriptOptions true)
    (document "3.0.0" (ownerSchemas ++ statusSchemas)%list)
  = Some (right
      (useStrictHeader
       ++ "export type Owner=Array<Pet>;export type Status='open'|'closed'")).
Proof.
  pose proof (@typeScript_output sampleEnvironment (typeScriptOptions true)
                (document "3.0.0" (ownerSchemas ++ statusSchemas)%list)
                (mkComponents (ownerSchemas ++ statusSchemas)%list)
                ["Array<Pet>"; "'open'|'closed'"] eq_refl eq_refl eq_refl)
    as Hclaim.
  assert (Hschemas :
    Forall2
      (fun schema t =>
         @getType sampleEnvironment (typeScriptOptions true) (snd schema)
         = Some (right t))
      (ownerSchemas ++ statusSchemas)%list ["Array<Pet>"; "'open'|'closed'"]).
  { repeat constructor. }
  exact (Hclaim Hschemas).
Defined.

Lemma legacy_toCamelCase_witness :
  ~ In EmptyString (Legacy.split "my-pet-list")
  /\ Legacy.toCamelCase asciiUpper "my-pet-list" = Some "MyPetList"
  /\ Legacy.toCamelCase asciiUpper "-pet" = None.
Proof.
  assert (Hno : ~ In EmptyString (Legacy.split "my-pet-list")).
  { simpl. intros [H|[H|[H|[]]]]; discriminate H. }
  split; [exact Hno|]. split.
  - exact (proj1 (proj2 (legacy_toCamelCase asciiUpper "my-pet-list")) Hno).
  - apply (proj1 (legacy_toCamelCase asciiUpper "-pet")). left. reflexivity.
Defined.


Lemma legacy_getType_failure_witness :
  exitOnInvalidType (typeScriptOptions true) = true
  /\ exists q,
       InvalidType fooProperty = InvalidType q
       /\ fixErrorsOnProperty q = q
       /\ ref q = None /\ allOf q = None /\ anyOf q = None /\ oneOf q = None.
Proof.
  apply (legacy_getType_failure asciiUpper (typeScriptOptions true)
           validThenInvalid (InvalidType fooProperty)).
  reflexivity.
Defined.

Lemma legacy_output_witness :
  Legacy.generate asciiUpper (typeScriptOptions true)
    (document "3.0.0" [("my-pet-list", stringArray)])
  = Some (right "export type MyPetList=Array<string>")
  /\ Legacy.generate asciiUpper (typeScriptOptions true)
       (document "3.0.0" [("-pets", stringArray)])
     = None.
Proof.
  split.
  - apply (proj1 (legacy_output asciiUpper (typeScriptOptions true)
                    (document "3.0.0" [("my-pet-list", stringArray)])
                    (mkComponents [("my-pet-list", stringArray)])
                    eq_refl eq_refl)
             [("MyPetList", "Array<string>")]).
    repeat constructor.
  - apply (proj2 (legacy_output asciiUpper (typeScriptOptions true)
                    (document "3.0.0" [("-pets", stringArray)])
                    (mkComponents [("-pets", stringArray)])
                    eq_refl eq_refl)
             "-pets" stringArray "Array<string>").
    + left. reflexivity.
    + reflexivity.
    + left. reflexivity.
Defined.

Lemma non_codec_output_witness :
  @generate sampleEnvironment (mkOptions Flow true) (petDocument "3.0.0")
  = option_map
      (E.map
         (fun declarations =>
            Generator.addHeader
              (@getGenerator sampleEnvironment (mkOptions Flow true))
              (Generator.combineTypes
                 (@getGenerator sampleEnvironment (mkOptions Flow true))
                 declarations)))
      (@getTypesFromSchemas sampleEnvironment (mkOptions Flow true) petSchemas).
Proof.
  apply (@non_codec_output sampleEnvironment (mkOptions Flow true)
           (petDocument "3.0.0") (mkComponents petSchemas)).
  - discriminate.
  - reflexivity.
  - reflexivity.
Defined.

Lemma primitive_types_witness :
  @getType sampleEnvironment (typeScriptOptions true) nullProperty
  = @wrapNullable sampleEnvironment (typeScriptOptions true) nullProperty
      (Some (@getInvalidType sampleEnvironment (typeScriptOptions true) nullProperty)).
Proof.
  pose proof (@primitive_types sampleEnvironment (typeScriptOptions true)
                nullProperty "null" eq_refl eq_refl eq_refl eq_refl eq_refl)
    as Hclaim.
  apply Hclaim. simpl. intros [H|[H|[H|[H|[H|[H|[]]]]]]]; discriminate H.
Defined.

Lemma legacy_primitive_types_witness :
  Legacy.getType asciiUpper (typeScriptOptions true) nullProperty
  = Some (right (Legacy.getTypeNullable nullProperty "null")).
Proof.
  apply (proj1 (proj2 (legacy_primitive_types asciiUpper (typeScriptOptions true)
                         nullProperty eq_refl eq_refl eq_refl eq_refl))
           "null" eq_refl).
  - simpl. auto.
  - discriminate.
Defined.
